(** * provider.ts: tree-data providers of the references view

    A shallow embedding of [src/provider.ts]: the three adapters
    ([ReferencesProvider], [CallItemDataProvider], [HistoryDataProvider]) and
    the swappable façade [TreeDataProviderWrapper], together with the part of
    the [vscode] event API they are written against. *)

From stdpp Require Import base option list gmap strings.

Local Open Scope string_scope.
Local Open Scope list_scope.
Local Open Scope nat_scope.

(** ** Results of calls

    A call either returns (for an [async] method: the promise resolves) or
    throws (the promise rejects).  [OutOfContract] marks a call that hands a
    method an element of a class its signature excludes, where the method
    reads members of the class it expects: what it finds is decided by
    classes outside this file. *)

Inductive JsError := TypeError | Rejected.

Inductive outcome (A : Type) :=
  | Returned (a : A)
  | Thrown (e : JsError)
  | OutOfContract.
Arguments Returned {A} a.
Arguments Thrown {A} e.
Arguments OutOfContract {A}.

Definition faults {A} (o : outcome A) : bool :=
  match o with Thrown _ => true | _ => false end.

(** ** The part of the [vscode] API the file uses *)

Module vscode.

(** [vscode.SymbolKind], a numeric enum: [File = 0] up to
    [TypeParameter = 25]. *)
Inductive SymbolKind :=
  | File | Module_ | Namespace | Package | Class_ | Method | Property
  | Field | Constructor | Enum | Interface | Function_ | Variable_
  | Constant | String_ | Number | Boolean | Array | Object | Key | Null
  | EnumMember | Struct | Event | Operator | TypeParameter.

Definition SymbolKind_value (k : SymbolKind) : nat :=
  match k with
  | File => 0 | Module_ => 1 | Namespace => 2 | Package => 3 | Class_ => 4
  | Method => 5 | Property => 6 | Field => 7 | Constructor => 8
  | Enum => 9 | Interface => 10 | Function_ => 11 | Variable_ => 12
  | Constant => 13 | String_ => 14 | Number => 15 | Boolean => 16
  | Array => 17 | Object => 18 | Key => 19 | Null => 20
  | EnumMember => 21 | Struct => 22 | Event => 23 | Operator => 24
  | TypeParameter => 25
  end.

Definition SymbolKind_all : list SymbolKind :=
  [ File; Module_; Namespace; Package; Class_; Method; Property; Field;
    Constructor; Enum; Interface; Function_; Variable_; Constant; String_;
    Number; Boolean; Array; Object; Key; Null; EnumMember; Struct; Event;
    Operator; TypeParameter ].

(** [new vscode.ThemeIcon(id)]; [ThemeIcon.File] is the built-in file icon. *)
Inductive ThemeIcon :=
  | ThemeIcon_new (id : string)
  | ThemeIcon_File.

Inductive TreeItemCollapsibleState := None_ | Collapsed | Expanded.

(** [vscode.TreeItemLabel]: a label with highlighted [start, end) spans. *)
Record TreeItemLabel := {
  label : string;
  highlights : list (nat * nat)
}.

(** [vscode.Command], over the type [A] of its arguments. *)
Record Command (A : Type) := {
  command : string;
  title : string;
  arguments : list A
}.
Arguments command {A} _.
Arguments title {A} _.
Arguments arguments {A} _.

(** What a tree item is constructed from: a string label, a resource uri
    ([new TreeItem(uri)]) or a highlighted label ([new TreeItem2(label)]).
    [OfMember a m] is [new TreeItem(a.m)] for an object [a] of a class whose
    member [m] this file does not declare: the item is made, with whatever
    that member holds. *)
Inductive TreeItemHead (U A : Type) :=
  | OfLabel (s : string)
  | OfUri (u : U)
  | OfTreeItemLabel (l : TreeItemLabel)
  | OfMember (a : A) (member : string).
Arguments OfLabel {U A} s.
Arguments OfUri {U A} u.
Arguments OfTreeItemLabel {U A} l.
Arguments OfMember {U A} a member.

(** [description]: a string, a flag, or, as for the head, the member of an
    object of another class. *)
Inductive Description (A : Type) :=
  | DescriptionText (s : string)
  | DescriptionFlag (b : bool)
  | DescriptionMember (a : A) (member : string).
Arguments DescriptionText {A} s.
Arguments DescriptionFlag {A} b.
Arguments DescriptionMember {A} a member.

(** [vscode.TreeItem]; a field never assigned is [None]. *)
Record TreeItem (U A : Type) := {
  head : TreeItemHead U A;
  description : option (Description A);
  contextValue : option string;
  iconPath : option ThemeIcon;
  collapsibleState : option TreeItemCollapsibleState;
  item_command : option (Command A)
}.
Arguments head {U A} _.
Arguments description {U A} _.
Arguments contextValue {U A} _.
Arguments iconPath {U A} _.
Arguments collapsibleState {U A} _.
Arguments item_command {U A} _.

(** [new vscode.TreeItem(x)]: nothing but the head is set. *)
Definition TreeItem_new {U A} (h : TreeItemHead U A) : TreeItem U A :=
  {| head := h; description := None; contextValue := None;
     iconPath := None; collapsibleState := None; item_command := None |}.

(** [vscode.EventEmitter<T>], over the type [L] of the listeners it holds.
    A listener is kept with the identity of the [Disposable] its
    subscription returned.  [fire] calls the listeners in subscription
    order; after [dispose] nothing is delivered and nothing can subscribe. *)
Record EventEmitter (L : Type) := {
  listeners : list (nat * L);
  disposed : bool
}.
Arguments listeners {L} _.
Arguments disposed {L} _.

Definition EventEmitter_new {L} : EventEmitter L :=
  {| listeners := []; disposed := false |}.

(** [emitter.event(listener)] *)
Definition EventEmitter_event {L} (d : nat) (l : L) (E : EventEmitter L)
  : EventEmitter L :=
  if disposed E then E
  else {| listeners := listeners E ++ [(d, l)]; disposed := false |}.

(** disposing the [Disposable] [d] of a subscription *)
Definition EventEmitter_remove {L} (d : nat) (E : EventEmitter L)
  : EventEmitter L :=
  {| listeners := filter (λ p, p.1 ≠ d) (listeners E);
     disposed := disposed E |}.

(** [emitter.dispose()] *)
Definition EventEmitter_dispose {L} (E : EventEmitter L) : EventEmitter L :=
  {| listeners := []; disposed := true |}.

(** the listeners a [fire] calls *)
Definition EventEmitter_targets {L} (E : EventEmitter L) : list L :=
  if disposed E then [] else (listeners E).*2.

End vscode.

(** ** The imports from [./models] and [./history]

    The classes of the domain models are declared outside this file.  They
    enter as an interface: the types, and the members [provider.ts] reads. *)

Record PreviewChunks := {
  before : string;
  inside : string;
  after : string
}.

Class Collaborators := {
  Uri : Type;
  Range : Type;
  TextDocument : Type;
  FileItem : Type;
  ReferenceItem : Type;
  CallItem : Type;
  HistoryItem : Type;
  (** [element.uri], [element.results] *)
  FileItem_uri : FileItem → Uri;
  FileItem_results : FileItem → list ReferenceItem;
  (** [await element.getDocument(true)]; [None] when the promise rejects *)
  FileItem_getDocument : FileItem → option TextDocument;
  (** [element.location.range], [element.parent] *)
  ReferenceItem_range : ReferenceItem → Range;
  ReferenceItem_parent : ReferenceItem → FileItem;
  getPreviewChunks : TextDocument → Range → PreviewChunks;
  (** [element.item.name], [element.item.detail], [element.item.kind],
      [element.parent] *)
  CallItem_name : CallItem → string;
  CallItem_detail : CallItem → option string;
  CallItem_kind : CallItem → nat;
  CallItem_parent : CallItem → option CallItem;
  (** [element.label], [element.description] *)
  HistoryItem_label : HistoryItem → string;
  HistoryItem_description : HistoryItem → string
}.

Section Providers.

Context {C : Collaborators}.

(** [export type TreeItem = FileItem | ReferenceItem | HistoryItem |
    CallHierarchyItem]: the class of an object is its constructor, so
    [instanceof] is a match. *)
Inductive TreeItem :=
  | IsFileItem (f : FileItem)
  | IsReferenceItem (r : ReferenceItem)
  | IsHistoryItem (h : HistoryItem)
  | IsCallItem (c : CallItem).

(** A JavaScript value as it travels in a change event: [undefined], one of
    the tree items, or any other value (a model announcing itself, say). *)
Inductive value :=
  | undefined
  | Obj (t : TreeItem)
  | Other (n : nat).

Definition instanceof_FileItem (e : value) : bool :=
  match e with Obj (IsFileItem _) => true | _ => false end.

Definition rendered := vscode.TreeItem Uri TreeItem.

(** The models handed to [update].  [streamOf] names the change stream
    [_model.onDidChange] of a references model. *)
Record ReferencesModel := {
  streamOf : nat;
  items : list FileItem
}.

(** [changeStream] names the change stream a calls model may own.  The class
    is declared outside this file and [provider.ts] reads no such member; the
    identity is carried so that an event of the calls model can be told from
    an event of any other model. *)
Record CallsModel := {
  roots : list CallItem;
  resolveCalls : CallItem → list CallItem;
  changeStream : nat
}.

(** [History] is iterated with [[...this._history]]. *)
Definition History := list HistoryItem.

Inductive Model :=
  | IsReferencesModel (m : ReferencesModel)
  | IsCallsModel (m : CallsModel)
  | IsHistory (h : History).

(** ** [ReferencesProvider]: the queries

    The methods tell the classes apart with [instanceof], so they are given
    on every tree item; the declared element type is [FileItem |
    ReferenceItem]. *)

(** [getTreeItem].  The [else] branch reads [element.location] and
    [element.parent], members of a reference item; on an object of another
    class what it finds is decided outside this file. *)
Definition ReferencesProvider_getTreeItem (element : TreeItem) : outcome rendered :=
  match element with
  | IsFileItem f =>
      let result : rendered := vscode.TreeItem_new (vscode.OfUri (FileItem_uri f)) in
      Returned
        {| vscode.head := vscode.head result;
           vscode.description := Some (vscode.DescriptionFlag true);
           vscode.contextValue := Some "file-item";
           vscode.iconPath := Some vscode.ThemeIcon_File;
           vscode.collapsibleState := Some vscode.Collapsed;
           vscode.item_command := vscode.item_command result |}
  | IsReferenceItem r =>
      let range := ReferenceItem_range r in
      match FileItem_getDocument (ReferenceItem_parent r) with
      | None => Thrown Rejected
      | Some doc =>
          let chunks := getPreviewChunks doc range in
          let label :=
            {| vscode.label := (before chunks +:+ inside chunks) +:+ after chunks;
               vscode.highlights :=
                 [ (String.length (before chunks),
                    String.length (before chunks) + String.length (inside chunks)) ] |} in
          let result : rendered := vscode.TreeItem_new (vscode.OfTreeItemLabel label) in
          Returned
            {| vscode.head := vscode.head result;
               vscode.description := vscode.description result;
               vscode.contextValue := Some "reference-item";
               vscode.iconPath := vscode.iconPath result;
               vscode.collapsibleState := Some vscode.None_;
               vscode.item_command :=
                 Some {| vscode.command := "references-view.show";
                         vscode.title := "Open Reference";
                         vscode.arguments := [IsReferenceItem r] |} |}
      end
  | _ => OutOfContract
  end.

(** [getChildren]: the roots when no element is given, the results of a
    file; for anything else no branch is taken and the function ends without
    a [return], so the promise resolves to [undefined] ([None]). *)
Definition ReferencesProvider_getChildren (_model : ReferencesModel)
    (element : option TreeItem) : option (list TreeItem) :=
  match element with
  | None => Some (IsFileItem <$> items _model)
  | Some (IsFileItem f) => Some (IsReferenceItem <$> FileItem_results f)
  | Some _ => None
  end.

(** [element instanceof ReferenceItem ? element.parent : undefined] *)
Definition ReferencesProvider_getParent (element : TreeItem) : option TreeItem :=
  match element with
  | IsReferenceItem r => Some (IsFileItem (ReferenceItem_parent r))
  | _ => None
  end.

(** ** [CallItemDataProvider]: the queries *)

(** The object literal [_themeIconIds], keyed by the numeric kind. *)
Definition CallItemDataProvider_themeIconIds : gmap nat string :=
  list_to_map
    [ (vscode.SymbolKind_value vscode.File, "symbol-file");
      (vscode.SymbolKind_value vscode.Module_, "symbol-module");
      (vscode.SymbolKind_value vscode.Namespace, "symbol-namespace");
      (vscode.SymbolKind_value vscode.Package, "symbol-package");
      (vscode.SymbolKind_value vscode.Class_, "symbol-class");
      (vscode.SymbolKind_value vscode.Method, "symbol-method");
      (vscode.SymbolKind_value vscode.Property, "symbol-property");
      (vscode.SymbolKind_value vscode.Field, "symbol-field");
      (vscode.SymbolKind_value vscode.Constructor, "symbol-constructor");
      (vscode.SymbolKind_value vscode.Enum, "symbol-enum");
      (vscode.SymbolKind_value vscode.Interface, "symbol-interface");
      (vscode.SymbolKind_value vscode.Function_, "symbol-function");
      (vscode.SymbolKind_value vscode.Variable_, "symbol-variable");
      (vscode.SymbolKind_value vscode.Constant, "symbol-constant");
      (vscode.SymbolKind_value vscode.String_, "symbol-string");
      (vscode.SymbolKind_value vscode.Number, "symbol-number");
      (vscode.SymbolKind_value vscode.Boolean, "symbol-boolean");
      (vscode.SymbolKind_value vscode.Array, "symbol-array");
      (vscode.SymbolKind_value vscode.Object, "symbol-object");
      (vscode.SymbolKind_value vscode.Key, "symbol-key");
      (vscode.SymbolKind_value vscode.Null, "symbol-null");
      (vscode.SymbolKind_value vscode.EnumMember, "symbol-enum-member");
      (vscode.SymbolKind_value vscode.Struct, "symbol-struct");
      (vscode.SymbolKind_value vscode.Event, "symbol-event");
      (vscode.SymbolKind_value vscode.Operator, "symbol-operator");
      (vscode.SymbolKind_value vscode.TypeParameter, "symbol-type-parameter") ].

(** [id && new vscode.ThemeIcon(id)]: a missing entry and the empty string
    are both falsy, and then no icon is made. *)
Definition CallItemDataProvider_truthy (s : string) : bool :=
  match s with EmptyString => false | _ => true end.

Definition CallItemDataProvider_getThemeIcon (kind : nat) : option vscode.ThemeIcon :=
  match CallItemDataProvider_themeIconIds !! kind with
  | Some id => if CallItemDataProvider_truthy id then Some (vscode.ThemeIcon_new id) else None
  | None => None
  end.

Definition CallItemDataProvider_getTreeItem (element : CallItem) : rendered :=
  let item : rendered := vscode.TreeItem_new (vscode.OfLabel (CallItem_name element)) in
  {| vscode.head := vscode.head item;
     vscode.description := vscode.DescriptionText <$> CallItem_detail element;
     vscode.contextValue := Some "call-item";
     vscode.iconPath := CallItemDataProvider_getThemeIcon (CallItem_kind element);
     vscode.collapsibleState := Some vscode.Collapsed;
     vscode.item_command :=
       Some {| vscode.command := "references-view.show";
               vscode.title := "Open Call";
               vscode.arguments := [IsCallItem element] |} |}.

Definition CallItemDataProvider_getChildren (_model : CallsModel) (element : option CallItem)
  : list CallItem :=
  match element with
  | None => roots _model
  | Some c => resolveCalls _model c
  end.

Definition CallItemDataProvider_getParent (element : CallItem) : option CallItem :=
  CallItem_parent element.

(** ** [HistoryDataProvider]: the queries *)

(** [getTreeItem] reads [element.label] and [element.description] and sets
    everything else without looking at the element, so it makes an item of
    whatever object it is given: of a history item with its label and
    description, of an object of another class with what that object has
    under these names. *)
Definition HistoryDataProvider_label (element : TreeItem)
  : vscode.TreeItemHead Uri TreeItem :=
  match element with
  | IsHistoryItem h => vscode.OfLabel (HistoryItem_label h)
  | _ => vscode.OfMember element "label"
  end.

Definition HistoryDataProvider_description (element : TreeItem)
  : vscode.Description TreeItem :=
  match element with
  | IsHistoryItem h => vscode.DescriptionText (HistoryItem_description h)
  | _ => vscode.DescriptionMember element "description"
  end.

Definition HistoryDataProvider_getTreeItem (element : TreeItem) : rendered :=
  let result : rendered := vscode.TreeItem_new (HistoryDataProvider_label element) in
  {| vscode.head := vscode.head result;
     vscode.description := Some (HistoryDataProvider_description element);
     vscode.contextValue := Some "history-item";
     vscode.iconPath := vscode.iconPath result;
     vscode.collapsibleState := Some vscode.None_;
     vscode.item_command :=
       Some {| vscode.command := "references-view.show";
               vscode.title := "Show";
               vscode.arguments := [element] |} |}.

(** [getChildren()] and [getParent()] are declared without a parameter: an
    argument a caller passes is dropped, which [_element] makes explicit. *)
Definition HistoryDataProvider_getChildren (_history : History)
    (_element : option TreeItem) : list HistoryItem :=
  _history.

Definition HistoryDataProvider_getParent (_element : TreeItem)
  : option HistoryItem := None.

(** ** Event streams and the heap of emitters

    Three families of emitters occur.  A references model owns its change
    stream; the only closure of this file subscribed to one is the
    constructor's, [e => this._onDidChangeTreeData.fire(e instanceof FileItem
    ? e : undefined)], which is determined by the emitter of the provider it
    captures.  Every adapter owns an emitter; the only closure subscribed to
    one is the façade's, [e => this._onDidChange.fire(e)], determined by the
    façade's emitter.  The façade's emitter is listened to by the host, whose
    listeners only observe.  A listener is therefore stored as the identity of
    what it forwards to. *)

Inductive Stream :=
  | ModelStream (n : nat)
  | AdapterStream (n : nat)
  | OutwardStream (n : nat).

(** What happens, in the order it happens. *)
Inductive Action :=
  | Created (s : Stream)
  | Subscribed (s : Stream) (d : nat)
  | ListenerDisposed (s : Stream) (d : nat)
  | EmitterDisposed (s : Stream)
  | Fired (s : Stream) (e : value)
  | Delivered (host : nat) (e : value).

Local Abbreviation emitters := (gmap nat (vscode.EventEmitter nat)).

(** The heap: the emitters of each family by identity, a listener stored as
    the emitter of the provider it fires (on a model stream), the emitter of
    the façade it fires (on an adapter stream) or the host it belongs to (on
    a façade's emitter); the next free identity; the trace so far. *)
Record World := {
  modelStreams : emitters;
  adapterStreams : emitters;
  outwardStreams : emitters;
  next : nat;
  trace : list Action
}.

Definition World_empty : World :=
  {| modelStreams := ∅; adapterStreams := ∅; outwardStreams := ∅;
     next := 0; trace := [] |}.

Definition set_modelStreams (f : emitters → emitters) (w : World)
  : World :=
  {| modelStreams := f (modelStreams w); adapterStreams := adapterStreams w;
     outwardStreams := outwardStreams w; next := next w; trace := trace w |}.

Definition set_adapterStreams (f : emitters → emitters) (w : World)
  : World :=
  {| modelStreams := modelStreams w; adapterStreams := f (adapterStreams w);
     outwardStreams := outwardStreams w; next := next w; trace := trace w |}.

Definition set_outwardStreams (f : emitters → emitters) (w : World)
  : World :=
  {| modelStreams := modelStreams w; adapterStreams := adapterStreams w;
     outwardStreams := f (outwardStreams w); next := next w; trace := trace w |}.

Definition log (a : list Action) (w : World) : World :=
  {| modelStreams := modelStreams w; adapterStreams := adapterStreams w;
     outwardStreams := outwardStreams w; next := next w;
     trace := trace w ++ a |}.

(** A fresh object identity. *)
Definition fresh (w : World) : nat * World :=
  (next w,
   {| modelStreams := modelStreams w; adapterStreams := adapterStreams w;
      outwardStreams := outwardStreams w; next := S (next w);
      trace := trace w |}).

(** The change stream of a model exists with the model: until something
    subscribes it is an emitter without listeners. *)
Definition modelStream (w : World) (n : nat) : vscode.EventEmitter nat :=
  default vscode.EventEmitter_new (modelStreams w !! n).

(** [this._onDidChange.fire(e)] on the façade's emitter [W]: every host
    listener observes [e]. *)
Definition fireOutward (W : nat) (e : value) (w : World) : World :=
  match outwardStreams w !! W with
  | Some E =>
      if vscode.disposed E then w
      else log (Fired (OutwardStream W) e
                  :: ((λ h, Delivered h e) <$> vscode.EventEmitter_targets E)) w
  | None => w
  end.

(** The façade's listener, [e => this._onDidChange.fire(e)]. *)
Definition providerListener (W : nat) (e : value) (w : World) : World :=
  fireOutward W e w.

(** [fire(e)] on the emitter [P] of an adapter. *)
Definition fireAdapter (P : nat) (e : value) (w : World) : World :=
  match adapterStreams w !! P with
  | Some E =>
      if vscode.disposed E then w
      else foldl (λ w' W, providerListener W e w')
             (log [Fired (AdapterStream P) e] w)
             (vscode.EventEmitter_targets E)
  | None => w
  end.

(** The listener of the [ReferencesProvider] constructor,
    [e => this._onDidChangeTreeData.fire(e instanceof FileItem ? e : undefined)]. *)
Definition modelListener (P : nat) (e : value) (w : World) : World :=
  fireAdapter P (if instanceof_FileItem e then e else undefined) w.

(** A model fires its change stream [M] with [e]. *)
Definition fireModel (M : nat) (e : value) (w : World) : World :=
  foldl (λ w' P, modelListener P e w')
    (log [Fired (ModelStream M) e] w)
    (vscode.EventEmitter_targets (modelStream w M)).

(** The [vscode.Disposable] a subscription returns. *)
Record Disposable := {
  on : Stream;
  handle : nat
}.

Definition Disposable_dispose (d : Disposable) (w : World) : World :=
  log [ListenerDisposed (on d) (handle d)]
    match on d with
    | ModelStream n =>
        set_modelStreams
          (<[n := vscode.EventEmitter_remove (handle d) (modelStream w n)]>) w
    | AdapterStream n =>
        set_adapterStreams (alter (vscode.EventEmitter_remove (handle d)) n) w
    | OutwardStream n =>
        set_outwardStreams (alter (vscode.EventEmitter_remove (handle d)) n) w
    end.

(** ** The adapters as objects *)

Inductive Provider :=
  | ReferencesProvider (_onDidChangeTreeData : nat) (_modelListener : Disposable)
      (_model : ReferencesModel)
  | CallItemDataProvider (_emitter : nat) (_model : CallsModel)
  | HistoryDataProvider (_emitter : nat) (_history : History).

(** [provider.onDidChangeTreeData] is the event of the provider's emitter. *)
Definition onDidChangeTreeData (p : Provider) : nat :=
  match p with
  | ReferencesProvider E _ _ => E
  | CallItemDataProvider E _ => E
  | HistoryDataProvider E _ => E
  end.

(** The field initialiser [new vscode.EventEmitter()] of an adapter. *)
Definition new_adapterEmitter (w : World) : nat * World :=
  let '(E, w1) := fresh w in
  (E, log [Created (AdapterStream E)]
        (set_adapterStreams (<[E := vscode.EventEmitter_new]>) w1)).

(** [new ReferencesProvider(model)]: the emitter, then the subscription to
    the model's change stream. *)
Definition ReferencesProvider_new (_model : ReferencesModel) (w : World)
  : Provider * World :=
  let '(E, w1) := new_adapterEmitter w in
  let '(d, w2) := fresh w1 in
  let M := streamOf _model in
  let w3 :=
    log [Subscribed (ModelStream M) d]
      (set_modelStreams
         (<[M := vscode.EventEmitter_event d E (modelStream w2 M)]>) w2) in
  (ReferencesProvider E {| on := ModelStream M; handle := d |} _model, w3).

(** [dispose()]: the emitter first, then the model listener. *)
Definition ReferencesProvider_dispose (E : nat) (_modelListener : Disposable)
  (w : World) : World :=
  let w1 :=
    log [EmitterDisposed (AdapterStream E)]
      (set_adapterStreams (alter vscode.EventEmitter_dispose E) w) in
  Disposable_dispose _modelListener w1.

(** [new CallItemDataProvider(model)]: the emitter; the constructor body is
    empty, so nothing is subscribed to the change stream of the model. *)
Definition CallItemDataProvider_new (_model : CallsModel) (w : World)
  : Provider * World :=
  let '(E, w1) := new_adapterEmitter w in
  (CallItemDataProvider E _model, w1).

Definition HistoryDataProvider_new (_history : History) (w : World)
  : Provider * World :=
  let '(E, w1) := new_adapterEmitter w in
  (HistoryDataProvider E _history, w1).

(** ** [TreeDataProviderWrapper] *)

Record TreeDataProviderWrapper := {
  _provider : option Provider;
  _providerListener : option Disposable;
  _onDidChange : nat
}.

(** The façade together with the heap it lives in. *)
Record State := {
  world : World;
  this : TreeDataProviderWrapper
}.

(** [new TreeDataProviderWrapper()] *)
Definition TreeDataProviderWrapper_new (w : World) : State :=
  let '(W, w1) := fresh w in
  {| world := log [Created (OutwardStream W)]
                (set_outwardStreams (<[W := vscode.EventEmitter_new]>) w1);
     this := {| _provider := None; _providerListener := None;
                _onDidChange := W |} |}.

(** [typeof this._provider.dispose === 'function']: of the three adapters
    only [ReferencesProvider] declares [dispose]. *)
Definition hasDispose (p : Provider) : bool :=
  match p with
  | ReferencesProvider _ _ _ => true
  | _ => false
  end.

Definition Provider_dispose (p : Provider) (w : World) : World :=
  match p with
  | ReferencesProvider E l _ => ReferencesProvider_dispose E l w
  | _ => w
  end.

(** [update], statement by statement.  Lines 188-191. *)
Definition update_releaseListener (s : State) : State :=
  match _providerListener (this s) with
  | Some d =>
      {| world := Disposable_dispose d (world s);
         this := {| _provider := _provider (this s);
                    _providerListener := None;
                    _onDidChange := _onDidChange (this s) |} |}
  | None => s
  end.

(** Lines 193-196. *)
Definition update_releaseProvider (s : State) : State :=
  match _provider (this s) with
  | Some p =>
      if hasDispose p then
        {| world := Provider_dispose p (world s);
           this := {| _provider := None;
                      _providerListener := _providerListener (this s);
                      _onDidChange := _onDidChange (this s) |} |}
      else s
  | None => s
  end.

(** Lines 198-204: the adapter is chosen by the class of the model. *)
Definition Provider_for (model : Model) (w : World) : Provider * World :=
  match model with
  | IsReferencesModel m => ReferencesProvider_new m w
  | IsCallsModel m => CallItemDataProvider_new m w
  | IsHistory h => HistoryDataProvider_new h w
  end.

Definition update_construct (model : Model) (s : State) : State :=
  let '(p, w) := Provider_for model (world s) in
  {| world := w;
     this := {| _provider := Some p;
                _providerListener := _providerListener (this s);
                _onDidChange := _onDidChange (this s) |} |}.

(** Line 206: [this._onDidChange.fire()]. *)
Definition update_fire (s : State) : State :=
  {| world := fireOutward (_onDidChange (this s)) undefined (world s);
     this := this s |}.

(** Line 207: the façade subscribes to the adapter just stored.  With an
    empty slot the property access would throw; [update_construct] has filled
    it. *)
Definition update_subscribe (s : State) : State :=
  match _provider (this s) with
  | Some p =>
      let '(d, w1) := fresh (world s) in
      let E := onDidChangeTreeData p in
      {| world :=
           log [Subscribed (AdapterStream E) d]
             (set_adapterStreams
                (alter (vscode.EventEmitter_event d (_onDidChange (this s))) E) w1);
         this := {| _provider := _provider (this s);
                    _providerListener :=
                      Some {| on := AdapterStream E; handle := d |};
                    _onDidChange := _onDidChange (this s) |} |}
  | None => s
  end.

Definition update (model : Model) (s : State) : State :=
  update_subscribe
    (update_fire
       (update_construct model
          (update_releaseProvider (update_releaseListener s)))).

(** The states [update] passes through, one after every statement. *)
Definition update_instants (model : Model) (s : State) : list State :=
  let s1 := update_releaseListener s in
  let s2 := update_releaseProvider s1 in
  let s3 := update_construct model s2 in
  let s4 := update_fire s3 in
  let s5 := update_subscribe s4 in
  [s1; s2; s3; s4; s5].

(** The queries of the façade delegate to the adapter in the slot,
    [Required<vscode.TreeDataProvider<any>>].  The methods of the call adapter
    go through members of a call item ([element.item.name], [resolveCalls]);
    on an element of another class the result is [OutOfContract]. *)
Definition asCallItem (t : TreeItem) : option CallItem :=
  match t with IsCallItem c => Some c | _ => None end.

Definition Provider_getTreeItem (p : Provider) (element : TreeItem)
  : outcome rendered :=
  match p with
  | ReferencesProvider _ _ _ => ReferencesProvider_getTreeItem element
  | CallItemDataProvider _ _ =>
      match asCallItem element with
      | Some c => Returned (CallItemDataProvider_getTreeItem c)
      | None => OutOfContract
      end
  | HistoryDataProvider _ _ =>
      Returned (HistoryDataProvider_getTreeItem element)
  end.

Definition Provider_getChildren (p : Provider) (element : option TreeItem)
  : outcome (option (list TreeItem)) :=
  match p with
  | ReferencesProvider _ _ m =>
      Returned (ReferencesProvider_getChildren m element)
  | CallItemDataProvider _ m =>
      match element with
      | None => Returned (Some (IsCallItem <$> CallItemDataProvider_getChildren m None))
      | Some t =>
          match asCallItem t with
          | Some c => Returned (Some (IsCallItem <$> CallItemDataProvider_getChildren m (Some c)))
          | None => OutOfContract
          end
      end
  | HistoryDataProvider _ h =>
      Returned (Some (IsHistoryItem <$> HistoryDataProvider_getChildren h element))
  end.

Definition Provider_getParent (p : Provider) (element : TreeItem)
  : outcome (option TreeItem) :=
  match p with
  | ReferencesProvider _ _ _ => Returned (ReferencesProvider_getParent element)
  | CallItemDataProvider _ _ =>
      match asCallItem element with
      | Some c => Returned (IsCallItem <$> CallItemDataProvider_getParent c)
      | None => OutOfContract
      end
  | HistoryDataProvider _ _ =>
      Returned (IsHistoryItem <$> HistoryDataProvider_getParent element)
  end.

(** [this._provider!.getTreeItem(element)]: the [!] is erased by the
    compiler, so with an empty slot the property access throws. *)
Definition getTreeItem (w : TreeDataProviderWrapper) (element : TreeItem)
  : outcome rendered :=
  match _provider w with
  | Some p => Provider_getTreeItem p element
  | None => Thrown TypeError
  end.

(** [this._provider?.getChildren(element)]: [undefined] with an empty slot. *)
Definition getChildren (w : TreeDataProviderWrapper) (element : option TreeItem)
  : outcome (option (list TreeItem)) :=
  match _provider w with
  | Some p => Provider_getChildren p element
  | None => Returned None
  end.

(** [this._provider?.getParent(element)] *)
Definition getParent (w : TreeDataProviderWrapper) (element : TreeItem)
  : outcome (option TreeItem) :=
  match _provider w with
  | Some p => Provider_getParent p element
  | None => Returned None
  end.

(** ** What the surroundings do

    The host subscribes to the façade's [onDidChangeTreeData]; models fire
    their change streams; the extension calls [update]. *)
Definition hostSubscribe (h : nat) (s : State) : State :=
  let '(d, w1) := fresh (world s) in
  let W := _onDidChange (this s) in
  {| world :=
       log [Subscribed (OutwardStream W) d]
         (set_outwardStreams (alter (vscode.EventEmitter_event d h) W) w1);
     this := this s |}.

Definition modelFires (M : nat) (e : value) (s : State) : State :=
  {| world := fireModel M e (world s); this := this s |}.

Definition initial : State := TreeDataProviderWrapper_new World_empty.

Inductive step : State → State → Prop :=
  | step_hostSubscribe h s : step s (hostSubscribe h s)
  | step_modelFires M e s : step s (modelFires M e s)
  | step_update model s : step s (update model s).

(** [evolves s s'] : the façade gets from [s] to [s'] in any number of steps. *)
Definition evolves : State → State → Prop := rtc step.

Definition reachable (s : State) : Prop := evolves initial s.

(** ** Notions the properties are stated with *)

(** The adapters subscribed to model streams (one entry for every listener,
    the emitter of the provider that subscribed it), and the adapters that
    carry a listener of the façade, read off the heap. *)
Definition modelSubscribers (w : World) : list nat :=
  map_fold (λ _ E acc, (vscode.listeners E).*2 ++ acc) [] (modelStreams w).

Definition adapterSubscribers (w : World) : list nat :=
  map_fold (λ P E acc, (const P <$> vscode.listeners E) ++ acc) []
    (adapterStreams w).

(** The adapter whose emitter is [P] is subscribed to a model's stream. *)
Definition subscribedToModel (w : World) (P : nat) : Prop :=
  P ∈ modelSubscribers w.

(** A listener of the façade sits on the emitter [P] of an adapter. *)
Definition subscribedToAdapter (w : World) (P : nat) : Prop :=
  P ∈ adapterSubscribers w.

Definition atMostOne (subscribed : nat → Prop) : Prop :=
  ∀ P1 P2, subscribed P1 → subscribed P2 → P1 = P2.

Definition isFired (a : Action) : bool :=
  match a with Fired _ _ => true | _ => false end.

Definition firedOn (s : Stream) (a : Action) : bool :=
  match a with
  | Fired (ModelStream n) _ =>
      match s with ModelStream k => bool_decide (n = k) | _ => false end
  | Fired (AdapterStream n) _ =>
      match s with AdapterStream k => bool_decide (n = k) | _ => false end
  | Fired (OutwardStream n) _ =>
      match s with OutwardStream k => bool_decide (n = k) | _ => false end
  | _ => false
  end.

(** Releasing: a listener or an emitter is disposed.  Building: an emitter is
    created or a listener subscribed. *)
Definition isRelease (a : Action) : bool :=
  match a with
  | ListenerDisposed _ _ | EmitterDisposed _ => true
  | _ => false
  end.

Definition isBuild (a : Action) : bool :=
  match a with
  | Created _ | Subscribed _ _ => true
  | _ => false
  end.

(** The payload a references adapter passes on. *)
Definition normalized (e : value) : value :=
  if instanceof_FileItem e then e else undefined.

(** ** Invariants of the heap *)

(** The adapter on whose stream an action fires, if it is one. *)
Definition adapterOf (a : Action) : option nat :=
  match a with Fired (AdapterStream k) _ => Some k | _ => None end.

(** Every emitter an adapter has fired on is older than [n]. *)
Definition freshTrace (n : nat) (t : list Action) : Prop :=
  ∀ k e, Fired (AdapterStream k) e ∈ t → k < n.

(** What an adapter in the slot has on the model streams: a references
    provider its one listener, on its own model; the others nothing. *)
Definition bound (w : World) (p : Provider) : Prop :=
  match p with
  | ReferencesProvider E l m =>
      on l = ModelStream (streamOf m)
      ∧ vscode.listeners (modelStream w (streamOf m)) = [(handle l, E)]
      ∧ ∀ M, M ≠ streamOf m → vscode.listeners (modelStream w M) = []
  | _ => ∀ M, vscode.listeners (modelStream w M) = []
  end.

(** The slot and the listener of the façade go together: both empty, or an
    adapter whose emitter carries the façade's listener and nothing else. *)
Definition slot (w : World) (t : TreeDataProviderWrapper) : Prop :=
  match _provider t, _providerListener t with
  | None, None =>
      (∀ M, vscode.listeners (modelStream w M) = [])
      ∧ ∀ P E, adapterStreams w !! P = Some E → vscode.listeners E = []
  | Some p, Some d =>
      on d = AdapterStream (onDidChangeTreeData p)
      ∧ adapterStreams w !! onDidChangeTreeData p
        = Some {| vscode.listeners := [(handle d, _onDidChange t)];
                  vscode.disposed := false |}
      ∧ onDidChangeTreeData p < next w
      ∧ bound w p
      ∧ ∀ P E, P ≠ onDidChangeTreeData p →
          adapterStreams w !! P = Some E → vscode.listeners E = []
  | _, _ => False
  end.

Record Inv (s : State) : Prop := {
  inv_outward :
    ∃ E, outwardStreams (world s) !! _onDidChange (this s) = Some E
         ∧ vscode.disposed E = false;
  inv_models_live : ∀ M, vscode.disposed (modelStream (world s) M) = false;
  inv_fresh : freshTrace (next (world s)) (trace (world s));
  inv_slot : slot (world s) (this s)
}.

(** No listener of this file is subscribed anywhere. *)
Record quiet (w : World) : Prop := {
  quiet_models : ∀ M, vscode.listeners (modelStream w M) = [];
  quiet_adapters : ∀ P E, adapterStreams w !! P = Some E → vscode.listeners E = []
}.

(** All subscriptions there are belong to the adapter with emitter [P0]. *)
Definition calm (w : World) (P0 : nat) : Prop :=
  (∀ M d P, (d, P) ∈ vscode.listeners (modelStream w M) → P = P0)
  ∧ (∀ P E d W, adapterStreams w !! P = Some E →
       (d, W) ∈ vscode.listeners E → P = P0).

(** What the first two statements of [update] dispose of, in order: the
    façade's listener, then the emitter and the model listener of a
    provider that has [dispose]. *)
Definition releaseActions (t : TreeDataProviderWrapper) : list Action :=
  match _providerListener t with
  | Some d => [ListenerDisposed (on d) (handle d)]
  | None => []
  end
  ++ match _provider t with
     | Some (ReferencesProvider E l _) =>
         [EmitterDisposed (AdapterStream E); ListenerDisposed (on l) (handle l)]
     | _ => []
     end.

(** [s2] is [s] after the two releasing statements. *)
Definition released (s s2 : State) : Prop :=
  quiet (world s2)
  ∧ _onDidChange (this s2) = _onDidChange (this s)
  ∧ outwardStreams (world s2) = outwardStreams (world s)
  ∧ next (world s2) = next (world s)
  ∧ (∀ M, vscode.disposed (modelStream (world s2) M) = false)
  ∧ trace (world s2) = trace (world s) ++ releaseActions (this s).

(** [s5] is [s2] after the three remaining statements: the emitter of the
    new adapter is created (and, in [build], subscribed to its model), the
    refresh is fired and delivered, and the façade subscribes. *)
Definition built (s2 s5 : State) (E0 : vscode.EventEmitter nat) : Prop :=
  _onDidChange (this s5) = _onDidChange (this s2)
  ∧ outwardStreams (world s5) = outwardStreams (world s2)
  ∧ ∃ build d p,
      trace (world s5)
      = trace (world s2) ++ (Created (AdapterStream (next (world s2))) :: build)
          ++ Fired (OutwardStream (_onDidChange (this s2))) undefined
             :: ((λ h, Delivered h undefined) <$> (vscode.listeners E0).*2)
          ++ [Subscribed (AdapterStream (next (world s2))) d]
      ∧ Forall (λ a, isBuild a = true) build
      ∧ _provider (this s5) = Some p
      ∧ onDidChangeTreeData p = next (world s2)
      ∧ _providerListener (this s5)
        = Some {| on := AdapterStream (next (world s2)); handle := d |}
      ∧ Forall (λ a, adapterOf a = None) build.

(** The trace of [update]: releases, then the building of the new adapter,
    then the refresh and its deliveries, then the façade's subscription. *)
Definition updated (s s' : State) : Prop :=
  ∃ E0 build d p,
    outwardStreams (world s) !! _onDidChange (this s) = Some E0
    ∧ outwardStreams (world s') = outwardStreams (world s)
    ∧ _onDidChange (this s') = _onDidChange (this s)
    ∧ trace (world s')
      = trace (world s) ++ releaseActions (this s)
          ++ (Created (AdapterStream (next (world s))) :: build)
          ++ Fired (OutwardStream (_onDidChange (this s))) undefined
             :: ((λ h, Delivered h undefined) <$> (vscode.listeners E0).*2)
          ++ [Subscribed (AdapterStream (next (world s))) d]
    ∧ Forall (λ a, isBuild a = true) build
    ∧ Forall (λ a, adapterOf a = None) build
    ∧ _provider (this s') = Some p
    ∧ onDidChangeTreeData p = next (world s)
    ∧ _providerListener (this s')
      = Some {| on := AdapterStream (next (world s)); handle := d |}.

(** ** Notions for the queries *)

(** The roots a model shows: [_model.items], [_model.roots],
    [[...this._history]]. *)
Definition rootsOf (model : Model) : list TreeItem :=
  match model with
  | IsReferencesModel m => IsFileItem <$> items m
  | IsCallsModel m => IsCallItem <$> roots m
  | IsHistory h => IsHistoryItem <$> h
  end.

(** The context value an adapter sets on what it renders: the references
    adapter by [element instanceof FileItem], the others always the same. *)
Definition contextGiven (p : Provider) (t : TreeItem) : string :=
  match p with
  | ReferencesProvider _ _ _ =>
      match t with
      | IsFileItem _ => "file-item"
      | _ => "reference-item"
      end
  | CallItemDataProvider _ _ => "call-item"
  | HistoryDataProvider _ _ => "history-item"
  end.

(** The payloads that leave an adapter: nothing, or a file item. *)
Definition refreshOrFile (e : value) : bool :=
  match e with
  | undefined | Obj (IsFileItem _) => true
  | _ => false
  end.

(** An action whose payload, if it is past a model's own stream, is nothing
    or a file item. *)
Definition payloadOk (a : Action) : bool :=
  match a with
  | Fired (AdapterStream _) e | Fired (OutwardStream _) e | Delivered _ e =>
      refreshOrFile e
  | _ => true
  end.

(** An action that reaches the façade's emitter or a host. *)
Definition reachesHost (a : Action) : bool :=
  match a with
  | Fired (OutwardStream _) _ | Delivered _ _ => true
  | _ => false
  end.

End Providers.

(** A small concrete world to run the code on: a file is its uri, a
    reference is its file and a column range in a one-line document, a call
    item is its name followed by the names of its ancestors, a history item
    is its label. *)
Module demo.

Definition chunks (doc : string) (range : nat * nat) : PreviewChunks :=
  {| before := String.substring 0 range.1 doc;
     inside := String.substring range.1 (range.2 - range.1) doc;
     after := String.substring range.2 (String.length doc - range.2) doc |}.

#[export] Instance collaborators : Collaborators := {|
  Uri := string;
  Range := nat * nat;
  TextDocument := string;
  FileItem := string;
  ReferenceItem := string * (nat * nat);
  CallItem := string * list string;
  HistoryItem := string;
  FileItem_uri := λ f, f;
  FileItem_results := λ f, [(f, (4, 7)); (f, (12, 15))];
  FileItem_getDocument := λ f,
    if String.eqb f "gone.txt" then None else Some "let foo = 1 + foo;";
  ReferenceItem_range := snd;
  ReferenceItem_parent := fst;
  getPreviewChunks := chunks;
  CallItem_name := fst;
  CallItem_detail := λ _, None;
  CallItem_kind := λ _, 11;
  CallItem_parent := λ c,
    match c.2 with
    | [] => None
    | p :: ps => Some (p, ps)
    end;
  HistoryItem_label := λ h, h;
  HistoryItem_description := λ h, h
|}.

Definition file_a : FileItem := "a.txt".
Definition match1 : ReferenceItem := (file_a, (4, 7)).
Definition match2 : ReferenceItem := (file_a, (12, 15)).
Definition foo : CallItem := ("foo", []).
Definition bar : CallItem := ("bar", ["foo"]).
Definition H1 : HistoryItem := "H1".
Definition H2 : HistoryItem := "H2".

Definition modelA : ReferencesModel :=
  {| streamOf := 0; items := [file_a] |}.

Definition calls : CallsModel :=
  {| roots := [foo];
     resolveCalls := λ c,
       if String.eqb c.1 "foo" then [("bar", c.1 :: c.2)] else [];
     changeStream := 9 |}.

Definition history : History := [H1; H2].

(** A host subscribes; a search is shown, then a call hierarchy, then the
    history. *)
Definition hosted : State := hostSubscribe 7 initial.
Definition searching : State := update (IsReferencesModel modelA) hosted.
Definition calling : State := update (IsCallsModel calls) searching.
Definition browsing : State := update (IsHistory history) calling.

End demo.

Section Properties.

Context {C : Collaborators}.

(** * Properties *)

(** ** Rendering *)

Lemma substring_prefix (b c : string) :
  String.substring 0 (String.length b) (b +:+ c) = b.
Proof.
  induction b as [|y b IH]; simpl.
  - by destruct c.
  - by rewrite IH.
Qed.

Lemma substring_middle (a b c : string) :
  String.substring (String.length a) (String.length b) ((a +:+ b) +:+ c) = b.
Proof.
  induction a as [|x a IH]; simpl; [apply substring_prefix | exact IH].
Qed.

(** C9: for every reference item whose document loads, the rendered item's
    label is the text before the match, the matched text and the text after
    it, concatenated in that order; its only highlight is the span
    [length before, length before + length inside], which is where the matched
    text sits in the label; its command is [references-view.show] with the
    item as sole argument. *)
Theorem C9_reference_item_rendering (r : ReferenceItem) (doc : TextDocument) :
  FileItem_getDocument (ReferenceItem_parent r) = Some doc →
  let c := getPreviewChunks doc (ReferenceItem_range r) in
  ∃ (item : rendered) (l : vscode.TreeItemLabel) (cmd : vscode.Command TreeItem),
    ReferencesProvider_getTreeItem (IsReferenceItem r) = Returned item
    ∧ vscode.head item = vscode.OfTreeItemLabel l
    ∧ vscode.label l = (before c +:+ inside c) +:+ after c
    ∧ vscode.highlights l =
        [(String.length (before c),
          String.length (before c) + String.length (inside c))]
    ∧ String.substring (String.length (before c)) (String.length (inside c))
        (vscode.label l) = inside c
    ∧ vscode.item_command item = Some cmd
    ∧ vscode.command cmd = "references-view.show"
    ∧ vscode.arguments cmd = [IsReferenceItem r].
Proof.
  intros Hdoc c. unfold ReferencesProvider_getTreeItem. rewrite Hdoc.
  eexists _, _, _. repeat split; try reflexivity.
  apply substring_middle.
Qed.

(** When the document does not load, the promise of [getTreeItem] rejects. *)
Lemma ReferencesProvider_getTreeItem_rejects (r : ReferenceItem) :
  FileItem_getDocument (ReferenceItem_parent r) = None →
  ReferencesProvider_getTreeItem (IsReferenceItem r) = Thrown Rejected.
Proof. intros H. unfold ReferencesProvider_getTreeItem. by rewrite H. Qed.

(** ** The icon table *)

Lemma SymbolKind_all_complete (k : vscode.SymbolKind) : k ∈ vscode.SymbolKind_all.
Proof. apply list_elem_of_In. destruct k; simpl; tauto. Qed.

Lemma SymbolKind_value_range (k : vscode.SymbolKind) : vscode.SymbolKind_value k < 26.
Proof. destruct k; simpl; lia. Qed.

(** C10: [_themeIconIds] has an entry for each of the 26 symbol kinds, [File]
    to [TypeParameter], and for each of them [_getThemeIcon] makes a theme
    icon from a non-empty identifier: the branch without an icon is not
    taken. *)
Theorem C10_every_symbol_kind_has_icon :
  length vscode.SymbolKind_all = 26
  ∧ size CallItemDataProvider_themeIconIds = 26
  ∧ ∀ k : vscode.SymbolKind,
      k ∈ vscode.SymbolKind_all
      ∧ ∃ id : string,
          CallItemDataProvider_themeIconIds !! vscode.SymbolKind_value k = Some id
          ∧ id ≠ ""
          ∧ CallItemDataProvider_getThemeIcon (vscode.SymbolKind_value k)
            = Some (vscode.ThemeIcon_new id).
Proof.
  split; [reflexivity|]. split; [by vm_compute|].
  intros k. split; [apply SymbolKind_all_complete|].
  destruct k; vm_compute; eexists; (split; [reflexivity|]); split; done.
Qed.

(** A number that is no symbol kind has no entry, and gets no icon. *)
Lemma getThemeIcon_outside (kind : nat) :
  (26 ≤ kind)%nat → CallItemDataProvider_getThemeIcon kind = None.
Proof.
  intros H. unfold CallItemDataProvider_getThemeIcon.
  assert (CallItemDataProvider_themeIconIds !! kind = None) as ->; [|done].
  apply not_elem_of_list_to_map_1. simpl.
  rewrite !not_elem_of_cons. repeat split; try lia. apply not_elem_of_nil.
Qed.

(** ** Which adapter [update] makes *)

Lemma update_provider (model : Model) (s : State) :
  _provider (this (update model s))
  = Some (Provider_for model
            (world (update_releaseProvider (update_releaseListener s)))).1.
Proof.
  unfold update, update_subscribe, update_fire, update_construct.
  by destruct (Provider_for _ _) as [p w].
Qed.

(** C8: [update] chooses the adapter by the class of its argument: a
    [ReferencesProvider] on a references model, a [CallItemDataProvider] on a
    calls model, a [HistoryDataProvider] on anything else; the adapter holds
    the argument as its model and is what the slot [_provider] holds when
    [update] returns. *)
Theorem C8_update_selects_adapter (model : Model) (s : State) :
  ∃ p : Provider,
    _provider (this (update model s)) = Some p
    ∧ match model with
      | IsReferencesModel m => ∃ E l, p = ReferencesProvider E l m
      | IsCallsModel m => ∃ E, p = CallItemDataProvider E m
      | IsHistory h => ∃ E, p = HistoryDataProvider E h
      end.
Proof.
  eexists. split; [apply update_provider|].
  destruct model; cbn; eauto.
Qed.

(** ** Queries on an empty slot and on terminal nodes *)

(** C3, as the code has it: with no adapter bound, [getChildren] and
    [getParent] answer [undefined] and do not throw; [getTreeItem], which
    reads the slot under a non-null assertion, throws. *)
Theorem C3_unbound_children_parent (w : TreeDataProviderWrapper)
    (element : TreeItem) (arg : option TreeItem) :
  _provider w = None →
  getChildren w arg = Returned None
  ∧ getParent w element = Returned None
  ∧ getTreeItem w element = Thrown TypeError.
Proof. intros H. unfold getChildren, getParent, getTreeItem. by rewrite H. Qed.

(** The slot is empty exactly until the first [update]. *)
Lemma initial_unbound : _provider (this initial) = None.
Proof. reflexivity. Qed.

Lemma update_bound (model : Model) (s : State) :
  is_Some (_provider (this (update model s))).
Proof. rewrite update_provider. eauto. Qed.

(** C4, as the code has it: asking for the children of a terminal node does
    not throw, neither at the adapter nor through the façade; for a reference
    item the references adapter answers [undefined], not an empty array. *)
Theorem C4_terminal_children (E E' : nat) (l : Disposable) (W : nat)
    (d : option Disposable) (m : ReferencesModel) (history : History)
    (r : ReferenceItem) (h : HistoryItem) :
  ReferencesProvider_getChildren m (Some (IsReferenceItem r)) = None
  ∧ getChildren
      {| _provider := Some (ReferencesProvider E l m);
         _providerListener := d; _onDidChange := W |}
      (Some (IsReferenceItem r)) = Returned None
  ∧ ∃ children : list TreeItem,
      getChildren
        {| _provider := Some (HistoryDataProvider E' history);
           _providerListener := d; _onDidChange := W |}
        (Some (IsHistoryItem h)) = Returned (Some children).
Proof. repeat split. eexists. reflexivity. Qed.

(** What the history adapter returns does not depend on the element asked
    about: it is the whole history. *)
Lemma HistoryDataProvider_getChildren_ignores (history : History)
    (element : option TreeItem) :
  HistoryDataProvider_getChildren history element = history.
Proof. reflexivity. Qed.

(** ** Events: how [fire] unfolds *)

Lemma log_log (a b : list Action) (w : World) : log a (log b w) = log (b ++ a) w.
Proof. unfold log; simpl. by rewrite app_assoc. Qed.

Lemma log_nil (w : World) : log [] w = w.
Proof. destruct w. unfold log; simpl. by rewrite app_nil_r. Qed.

Lemma fireOutward_live (W : nat) (e : value) (w : World) (E : vscode.EventEmitter nat) :
  outwardStreams w !! W = Some E → vscode.disposed E = false →
  fireOutward W e w
  = log (Fired (OutwardStream W) e
           :: ((λ h, Delivered h e) <$> (vscode.listeners E).*2)) w.
Proof.
  intros HE Hd. unfold fireOutward, vscode.EventEmitter_targets.
  by rewrite HE, Hd.
Qed.

Lemma fireAdapter_single (P : nat) (e : value) (w : World) (d W : nat) :
  adapterStreams w !! P
  = Some {| vscode.listeners := [(d, W)]; vscode.disposed := false |} →
  fireAdapter P e w = fireOutward W e (log [Fired (AdapterStream P) e] w).
Proof. intros HE. unfold fireAdapter. by rewrite HE. Qed.

Lemma fireModel_quiet (M : nat) (e : value) (w : World) :
  vscode.listeners (modelStream w M) = [] →
  fireModel M e w = log [Fired (ModelStream M) e] w.
Proof.
  intros H. unfold fireModel, vscode.EventEmitter_targets. rewrite H.
  by destruct (vscode.disposed _).
Qed.

Lemma fireModel_single (M : nat) (e : value) (w : World) (d P : nat) :
  vscode.listeners (modelStream w M) = [(d, P)] →
  vscode.disposed (modelStream w M) = false →
  fireModel M e w = modelListener P e (log [Fired (ModelStream M) e] w).
Proof.
  intros H Hd. unfold fireModel, vscode.EventEmitter_targets. by rewrite H, Hd.
Qed.

(** ** The invariant and its preservation *)

Lemma freshTrace_app (n n' : nat) (t extra : list Action) :
  freshTrace n t → n ≤ n' →
  Forall (λ a, ∀ k, adapterOf a = Some k → k < n') extra →
  freshTrace n' (t ++ extra).
Proof.
  intros Ht Hn Hextra k e [H|H]%elem_of_app.
  - specialize (Ht k e H). lia.
  - rewrite Forall_forall in Hextra. by apply (Hextra _ H).
Qed.

Lemma deliveries_fresh (n : nat) (e : value) (hosts : list nat) :
  Forall (λ a, ∀ k, adapterOf a = Some k → k < n) ((λ h, Delivered h e) <$> hosts).
Proof. apply Forall_fmap, Forall_true. by intros h k. Qed.

Ltac fresh_extra :=
  repeat first
    [ apply deliveries_fresh
    | apply Forall_nil_2
    | apply Forall_cons_2; [intros ? [=]; subst; try lia|]
    | apply Forall_app_2 ].

Lemma Inv_initial : Inv initial.
Proof.
  split; simpl.
  - eexists. split; [apply lookup_insert_eq|done].
  - intros M. done.
  - apply (freshTrace_app 0 _ []); [by intros k e H%elem_of_nil|lia|fresh_extra].
  - split; [done|]. intros P E H. cbn in H. done.
Qed.

Lemma modelStream_frame (w w' : World) (M : nat) :
  modelStreams w' = modelStreams w → modelStream w' M = modelStream w M.
Proof. unfold modelStream. by intros ->. Qed.

Lemma remove_single (d P : nat) (E : vscode.EventEmitter nat) :
  vscode.listeners E = [(d, P)] →
  vscode.listeners (vscode.EventEmitter_remove d E) = [].
Proof.
  intros H. unfold vscode.EventEmitter_remove. simpl. rewrite H.
  rewrite filter_cons. simpl. by destruct (decide (d ≠ d)).
Qed.

(** The two releasing statements of [update] leave no listener behind. *)
Lemma release_spec (s : State) :
  Inv s → released s (update_releaseProvider (update_releaseListener s)).
Proof.
  intros [Hout Hlive Hfresh Hslot].
  destruct s as [w [p l W]]. unfold slot in Hslot. simpl in *.
  destruct p as [p|], l as [[o d]|]; try done.
  - destruct Hslot as (Ho & HP & Hlt & Hb & Hothers). simpl in *. subst o.
    unfold update_releaseListener, update_releaseProvider. simpl.
    destruct p as [E [o l] m| E m | E h]; simpl in *.
    + destruct Hb as (Hl & HM & HMs). simpl in *. subst o.
      unfold ReferencesProvider_dispose, Disposable_dispose. simpl.
      repeat split; simpl.
      * intros M. unfold modelStream at 1. simpl. rewrite lookup_insert.
        destruct (decide (streamOf m = M)) as [<-|Hne]; simpl.
        -- eapply remove_single. exact HM.
        -- apply HMs. done.
      * intros P E'. destruct (decide (E = P)) as [<-|Hne].
        -- rewrite !lookup_alter_eq, HP. simpl. by intros [= <-].
        -- rewrite !lookup_alter_ne by done. intros H. by eapply Hothers.
      * intros M. unfold modelStream at 1. simpl. rewrite lookup_insert.
        destruct (decide (streamOf m = M)) as [<-|Hne]; simpl; apply Hlive.
      * by rewrite <- !app_assoc.
    + unfold Disposable_dispose. simpl. repeat split; simpl; try done.
      * intros P E'. destruct (decide (E = P)) as [<-|Hne].
        -- rewrite lookup_alter_eq, HP. simpl. intros [= <-]. by eapply remove_single.
        -- rewrite lookup_alter_ne by done. intros H. by eapply Hothers.
    + unfold Disposable_dispose. simpl. repeat split; simpl; try done.
      * intros P E'. destruct (decide (E = P)) as [<-|Hne].
        -- rewrite lookup_alter_eq, HP. simpl. intros [= <-]. by eapply remove_single.
        -- rewrite lookup_alter_ne by done. intros H. by eapply Hothers.
  - destruct Hslot as [HM HA]. unfold update_releaseListener, update_releaseProvider. simpl.
    repeat split; simpl; try done.
    all: by rewrite app_nil_r.
Qed.

Lemma event_listeners (d l : nat) (X : vscode.EventEmitter nat) :
  vscode.disposed X = false →
  vscode.listeners (vscode.EventEmitter_event d l X) = vscode.listeners X ++ [(d, l)].
Proof. intros H. unfold vscode.EventEmitter_event. by rewrite H. Qed.

Lemma event_disposed (d l : nat) (X : vscode.EventEmitter nat) :
  vscode.disposed (vscode.EventEmitter_event d l X) = vscode.disposed X.
Proof.
  unfold vscode.EventEmitter_event.
  by destruct (vscode.disposed X) eqn:H.
Qed.

Lemma targets_live (X : vscode.EventEmitter nat) :
  vscode.disposed X = false →
  vscode.EventEmitter_targets X = (vscode.listeners X).*2.
Proof. intros H. unfold vscode.EventEmitter_targets. by rewrite H. Qed.

(** The three remaining statements, from a heap without listeners. *)
Lemma build_spec (model : Model) (s2 : State) (E0 : vscode.EventEmitter nat) :
  quiet (world s2) →
  (∀ M, vscode.disposed (modelStream (world s2) M) = false) →
  outwardStreams (world s2) !! _onDidChange (this s2) = Some E0 →
  vscode.disposed E0 = false →
  freshTrace (next (world s2)) (trace (world s2)) →
  let s5 := update_subscribe (update_fire (update_construct model s2)) in
  Inv s5 ∧ built s2 s5 E0.
Proof.
  intros [HM HA] Hlive HE0 Hd Hfresh.
  destruct s2 as [w [p l W]]. simpl in *.
  assert (∀ (P : nat) (E : vscode.EventEmitter nat) (d : nat),
    P ≠ next w →
    alter (vscode.EventEmitter_event d W) (next w)
      (<[next w := vscode.EventEmitter_new]> (adapterStreams w)) !! P = Some E →
    vscode.listeners E = []) as Hothers.
  { intros P E d Hne. rewrite lookup_alter_ne, lookup_insert_ne by done. apply HA. }
  destruct model as [m|m|h];
    unfold update_subscribe, update_fire, update_construct; cbn;
    unfold fireOutward; cbn; rewrite HE0, Hd, (targets_live _ Hd); cbn.
  - split; [split; cbn|].
    + eauto.
    + intros M. unfold modelStream at 1. cbn. rewrite lookup_insert.
      destruct (decide (streamOf m = M)) as [<-|Hne]; cbn; [|apply Hlive].
      rewrite event_disposed. apply Hlive.
    + rewrite <- !app_assoc. eapply freshTrace_app; [done|lia|fresh_extra].
    + unfold slot. cbn. split_and!; try done.
      * by rewrite lookup_alter_eq, lookup_insert_eq.
      * lia.
      * unfold modelStream at 1. cbn. rewrite lookup_insert_eq. cbn.
        rewrite event_listeners by apply Hlive.
        unfold modelStream in HM |- *. cbn. by rewrite HM.
      * intros M Hne. unfold modelStream at 1. cbn.
        rewrite lookup_insert_ne by done. apply HM.
      * intros P E. apply Hothers.
    + unfold built. cbn. split_and!; try done.
      eexists [_], _, _. split_and!; try done.
      all: first [by rewrite <- !app_assoc | by rewrite <- !app_assoc; cbn | repeat constructor].
  - split; [split; cbn|].
    + eauto.
    + apply Hlive.
    + rewrite <- !app_assoc. eapply freshTrace_app; [done|lia|fresh_extra].
    + unfold slot. cbn. split_and!; try done.
      * by rewrite lookup_alter_eq, lookup_insert_eq.
      * lia.
      * intros P E. apply Hothers.
    + unfold built. cbn. split_and!; try done.
      eexists [], _, _. split_and!; try done.
      all: first [by rewrite <- !app_assoc | by rewrite <- !app_assoc; cbn | repeat constructor].
  - split; [split; cbn|].
    + eauto.
    + apply Hlive.
    + rewrite <- !app_assoc. eapply freshTrace_app; [done|lia|fresh_extra].
    + unfold slot. cbn. split_and!; try done.
      * by rewrite lookup_alter_eq, lookup_insert_eq.
      * lia.
      * intros P E. apply Hothers.
    + unfold built. cbn. split_and!; try done.
      eexists [], _, _. split_and!; try done.
      all: first [by rewrite <- !app_assoc | by rewrite <- !app_assoc; cbn | repeat constructor].
Qed.

Lemma releaseActions_release (t : TreeDataProviderWrapper) :
  Forall (λ a, isRelease a = true) (releaseActions t).
Proof.
  unfold releaseActions. apply Forall_app_2.
  - destruct (_providerListener t); by repeat constructor.
  - destruct (_provider t) as [[]|]; by repeat constructor.
Qed.

Lemma release_adapterOf (rel : list Action) :
  Forall (λ a, isRelease a = true) rel → Forall (λ a, adapterOf a = None) rel.
Proof. intros H. eapply Forall_impl; [exact H|]. by intros [[]| | | |[]|]. Qed.

Lemma adapterOf_None_fresh (n : nat) (l : list Action) :
  Forall (λ a, adapterOf a = None) l →
  Forall (λ a, ∀ k, adapterOf a = Some k → k < n) l.
Proof. intros H. eapply Forall_impl; [exact H|]. by intros a -> k. Qed.

Lemma update_spec (model : Model) (s : State) :
  Inv s → Inv (update model s) ∧ updated s (update model s).
Proof.
  intros HI.
  pose proof (release_spec s HI) as (Hq & HW & Hout & Hnext & Hlive & Hrel).
  destruct (inv_outward s HI) as (E0 & HE0 & Hd).
  set (s2 := update_releaseProvider (update_releaseListener s)) in *.
  destruct (build_spec model s2 E0) as
    [HI5 (HW5 & Hout5 & build & d & p & Htr & Hb & Hp & HE & Hl & Hbn)];
    try done.
  - by rewrite Hout, HW.
  - rewrite Hrel, Hnext. eapply freshTrace_app; [apply HI|lia|].
    apply adapterOf_None_fresh, release_adapterOf, releaseActions_release.
  - split; [exact HI5|].
    exists E0, build, d, p. fold s2 in HI5.
    change (update model s)
      with (update_subscribe (update_fire (update_construct model s2))).
    rewrite Hout5, HW5, Htr, Hrel, Hp, HE, Hl, Hout, HW, Hnext.
    split_and!; try done. by rewrite <- !app_assoc.
Qed.

Lemma Inv_log (a : list Action) (s : State) :
  Inv s →
  Forall (λ x, ∀ k, adapterOf x = Some k → k < next (world s)) a →
  Inv {| world := log a (world s); this := this s |}.
Proof.
  intros [Hout Hlive Hfresh Hslot] Ha. split; simpl; try done.
  by eapply freshTrace_app.
Qed.

(** A model event, with a references provider bound to that model. *)
Lemma fireModel_bound (s : State) (E : nat) (l : Disposable) (m : ReferencesModel)
    (E0 : vscode.EventEmitter nat) (e : value) :
  Inv s →
  _provider (this s) = Some (ReferencesProvider E l m) →
  outwardStreams (world s) !! _onDidChange (this s) = Some E0 →
  fireModel (streamOf m) e (world s)
  = log ([ Fired (ModelStream (streamOf m)) e;
           Fired (AdapterStream E) (normalized e);
           Fired (OutwardStream (_onDidChange (this s))) (normalized e) ]
         ++ ((λ h, Delivered h (normalized e)) <$> (vscode.listeners E0).*2))
      (world s).
Proof.
  intros [(E0' & HE0 & Hd) Hlive Hfresh Hslot] Hp HE.
  rewrite HE in HE0. injection HE0 as <-.
  unfold slot in Hslot. rewrite Hp in Hslot.
  destruct (_providerListener (this s)) as [d|]; [|done].
  destruct Hslot as (Hon & HP & Hlt & (Hl & HM & HMs) & Hothers). simpl in *.
  rewrite (fireModel_single _ _ _ _ _ HM (Hlive _)).
  unfold modelListener. fold (normalized e).
  erewrite fireAdapter_single by exact HP.
  erewrite fireOutward_live by done.
  by rewrite !log_log.
Qed.

(** A model event on a stream nobody listens to. *)
Lemma fireModel_unbound (s : State) (M : nat) (e : value) :
  Inv s →
  (∀ E l m, _provider (this s) = Some (ReferencesProvider E l m) → M ≠ streamOf m) →
  fireModel M e (world s) = log [Fired (ModelStream M) e] (world s).
Proof.
  intros [_ Hlive Hfresh Hslot] Hne. apply fireModel_quiet.
  unfold slot in Hslot.
  destruct (_provider (this s)) as [[E l m|E m|E h]|],
    (_providerListener (this s)) as [d|]; try done; simpl in *.
  - destruct Hslot as (_ & _ & _ & (_ & _ & HMs) & _). apply HMs. by eapply Hne.
  - by destruct Hslot as (_ & _ & _ & HMs & _).
  - by destruct Hslot as (_ & _ & _ & HMs & _).
  - by destruct Hslot as [HMs _].
Qed.

Lemma fireModel_log (M : nat) (e : value) (s : State) :
  Inv s →
  ∃ a, fireModel M e (world s) = log a (world s)
       ∧ Forall (λ x, ∀ k, adapterOf x = Some k → k < next (world s)) a
       ∧ ((∀ p, _provider (this s) = Some p → hasDispose p = false) →
          a = [Fired (ModelStream M) e]).
Proof.
  intros HI. destruct (_provider (this s)) as [[E l m|E m|E h]|] eqn:Hp.
  - destruct (decide (M = streamOf m)) as [->|Hne].
    + destruct (inv_outward s HI) as (E0 & HE0 & Hd).
      eexists. split; [by eapply fireModel_bound|].
      pose proof (inv_slot s HI) as Hslot. unfold slot in Hslot. rewrite Hp in Hslot.
      destruct (_providerListener (this s)); [|done].
      destruct Hslot as (_ & _ & Hlt & _). simpl in Hlt.
      split; [fresh_extra|]. intros H. by specialize (H _ eq_refl).
    + eexists. split; [apply fireModel_unbound; [done|]|split; [fresh_extra|done]].
      intros ??? H. rewrite Hp in H. by injection H as <- <- <-.
  - eexists. split; [apply fireModel_unbound; [done|]|split; [fresh_extra|done]].
    intros ??? H. by rewrite Hp in H.
  - eexists. split; [apply fireModel_unbound; [done|]|split; [fresh_extra|done]].
    intros ??? H. by rewrite Hp in H.
  - eexists. split; [apply fireModel_unbound; [done|]|split; [fresh_extra|done]].
    intros ??? H. by rewrite Hp in H.
Qed.

Lemma Inv_modelFires (M : nat) (e : value) (s : State) :
  Inv s → Inv (modelFires M e s).
Proof.
  intros HI. unfold modelFires.
  destruct (fireModel_log M e s HI) as (a & -> & Ha & _).
  by apply Inv_log.
Qed.

Lemma Inv_hostSubscribe (h : nat) (s : State) :
  Inv s → Inv (hostSubscribe h s).
Proof.
  intros [(E0 & HE0 & Hd) Hlive Hfresh Hslot].
  unfold hostSubscribe. split; cbn.
  - eexists. rewrite lookup_alter_eq, HE0. split; [done|].
    by rewrite event_disposed.
  - apply Hlive.
  - eapply freshTrace_app; [done|lia|fresh_extra].
  - unfold slot in *. cbn.
    destruct (_provider (this s)), (_providerListener (this s)); try done.
    destruct Hslot as (? & ? & ? & ? & ?). split_and!; try done. lia.
Qed.

Lemma Inv_step (s s' : State) : step s s' → Inv s → Inv s'.
Proof.
  intros [h ?|M e ?|model ?] HI.
  - by apply Inv_hostSubscribe.
  - by apply Inv_modelFires.
  - by apply update_spec.
Qed.

Lemma Inv_evolves (s s' : State) : evolves s s' → Inv s → Inv s'.
Proof. induction 1; eauto using Inv_step. Qed.

Lemma Inv_reachable (s : State) : reachable s → Inv s.
Proof. intros H. eapply Inv_evolves; [exact H|apply Inv_initial]. Qed.

(** ** One adapter at a time *)

Lemma subscribedToModel_spec (w : World) (P : nat) :
  subscribedToModel w P ↔ ∃ M d, (d, P) ∈ vscode.listeners (modelStream w M).
Proof.
  unfold subscribedToModel, modelSubscribers, modelStream.
  generalize (modelStreams w). intros m.
  transitivity (∃ M E d, m !! M = Some E ∧ (d, P) ∈ vscode.listeners E).
  - apply (map_fold_weak_ind
             (λ r m, P ∈ r ↔ ∃ M E d, m !! M = Some E ∧ (d, P) ∈ vscode.listeners E)).
    + split; [by intros ?%elem_of_nil|]. intros (M & E & d & H & _).
      by rewrite lookup_empty in H.
    + intros i x m' r Hi IH. rewrite elem_of_app, IH. split.
      * intros [Hin|(M & E & d & HM & Hin)].
        -- apply list_elem_of_fmap in Hin as ([d P'] & -> & Hin).
           exists i, x, d. by rewrite lookup_insert_eq.
        -- exists M, E, d. rewrite lookup_insert_ne; [done|]. congruence.
      * intros (M & E & d & HM & Hin). destruct (decide (i = M)) as [->|Hne].
        -- rewrite lookup_insert_eq in HM. injection HM as ->. left.
           apply list_elem_of_fmap. by exists (d, P).
        -- rewrite lookup_insert_ne in HM by done. right. eauto.
  - split.
    + intros (M & E & d & HM & Hin). exists M, d. by rewrite HM.
    + intros (M & d & Hin). destruct (m !! M) as [E|] eqn:HM; simpl in Hin.
      * eauto.
      * by apply elem_of_nil in Hin.
Qed.

Lemma subscribedToAdapter_spec (w : World) (P : nat) :
  subscribedToAdapter w P
  ↔ ∃ E d W, adapterStreams w !! P = Some E ∧ (d, W) ∈ vscode.listeners E.
Proof.
  unfold subscribedToAdapter, adapterSubscribers.
  generalize (adapterStreams w). intros m.
  apply (map_fold_weak_ind
           (λ r m, P ∈ r ↔ ∃ E d W, m !! P = Some E ∧ (d, W) ∈ vscode.listeners E)).
  - split; [by intros ?%elem_of_nil|]. intros (E & d & W & H & _).
    by rewrite lookup_empty in H.
  - intros i x m' r Hi IH. rewrite elem_of_app, IH. split.
    + intros [Hin|(E & d & W & HM & Hin)].
      * apply list_elem_of_fmap in Hin as ([d W] & -> & Hin).
        exists x, d, W. by rewrite lookup_insert_eq.
      * exists E, d, W. rewrite lookup_insert_ne; [done|]. congruence.
    + intros (E & d & W & HM & Hin). destruct (decide (i = P)) as [->|Hne].
      * rewrite lookup_insert_eq in HM. injection HM as ->. left.
        apply list_elem_of_fmap. by exists (d, W).
      * rewrite lookup_insert_ne in HM by done. right. eauto.
Qed.

Lemma calm_atMostOne (w : World) (P0 : nat) :
  calm w P0 →
  atMostOne (subscribedToModel w) ∧ atMostOne (subscribedToAdapter w).
Proof.
  intros [HM HA]. split.
  - intros P1 P2 (M1 & d1 & H1)%subscribedToModel_spec
      (M2 & d2 & H2)%subscribedToModel_spec.
    by rewrite (HM _ _ _ H1), (HM _ _ _ H2).
  - intros P1 P2 (E1 & d1 & W1 & HE1 & H1)%subscribedToAdapter_spec
      (E2 & d2 & W2 & HE2 & H2)%subscribedToAdapter_spec.
    by rewrite (HA _ _ _ _ HE1 H1), (HA _ _ _ _ HE2 H2).
Qed.

Lemma calm_frame (w w' : World) (P0 : nat) :
  modelStreams w' = modelStreams w → adapterStreams w' = adapterStreams w →
  calm w P0 → calm w' P0.
Proof.
  intros HM HA [H1 H2]. split.
  - intros M. rewrite (modelStream_frame w w' M HM). apply H1.
  - intros P. rewrite HA. apply H2.
Qed.

Lemma quiet_calm (w : World) (P0 : nat) : quiet w → calm w P0.
Proof.
  intros [HM HA]. split.
  - intros M d P. rewrite HM. by intros ?%elem_of_nil.
  - intros P E d W HE. rewrite (HA _ _ HE). by intros ?%elem_of_nil.
Qed.

Lemma Inv_calm (s : State) : Inv s → ∃ P0, calm (world s) P0.
Proof.
  intros [_ _ _ Hslot]. unfold slot in Hslot.
  destruct (_provider (this s)) as [p|] eqn:Hp,
    (_providerListener (this s)) as [l|] eqn:Hl; try done.
  - destruct Hslot as (_ & HP & _ & Hb & Hothers).
    exists (onDidChangeTreeData p). split.
    + intros M d P. destruct p as [E [o h] m|E m|E h]; simpl in *.
      * destruct Hb as (_ & HM & HMs).
        destruct (decide (M = streamOf m)) as [->|Hne].
        -- rewrite HM. by intros [= _ ->]%list_elem_of_singleton.
        -- rewrite (HMs _ Hne). by intros ?%elem_of_nil.
      * rewrite Hb. by intros ?%elem_of_nil.
      * rewrite Hb. by intros ?%elem_of_nil.
    + intros P E d W HE Hin.
      destruct (decide (P = onDidChangeTreeData p)) as [|Hne]; [done|].
      rewrite (Hothers _ _ Hne HE) in Hin. by apply elem_of_nil in Hin.
  - exists 0. apply quiet_calm. by destruct Hslot.
Qed.

Lemma remove_subseteq (d : nat) (E : vscode.EventEmitter nat) (x : nat * nat) :
  x ∈ vscode.listeners (vscode.EventEmitter_remove d E) → x ∈ vscode.listeners E.
Proof. unfold vscode.EventEmitter_remove. simpl. by intros [_ ?]%list_elem_of_filter. Qed.

Lemma releaseListener_calm (s : State) :
  Inv s → ∃ P0, calm (world (update_releaseListener s)) P0.
Proof.
  intros HI. destruct (Inv_calm s HI) as [P0 [HM HA]].
  unfold update_releaseListener.
  destruct (_providerListener (this s)) as [[o d]|]; [|by exists P0].
  exists P0. unfold Disposable_dispose. simpl. split.
  - intros M d' P. destruct o; simpl.
    + unfold modelStream at 1. simpl. rewrite lookup_insert.
      destruct (decide (n = M)) as [<-|Hne]; simpl.
      * intros H%remove_subseteq. by eapply HM.
      * apply HM.
    + apply HM.
    + apply HM.
  - intros P E d' W. destruct o; simpl; try apply HA.
    destruct (decide (n = P)) as [<-|Hne].
    + rewrite lookup_alter_eq.
      destruct (adapterStreams (world s) !! n) as [E'|] eqn:HE'; [|done].
      simpl. intros [= <-] H%remove_subseteq. by eapply HA.
    + rewrite lookup_alter_ne by done. apply HA.
Qed.

Lemma construct_calm (model : Model) (s2 : State) :
  quiet (world s2) →
  (∀ M, vscode.disposed (modelStream (world s2) M) = false) →
  calm (world (update_construct model s2)) (next (world s2)).
Proof.
  intros [HM HA] Hlive. destruct s2 as [w t]. simpl in *.
  assert (∀ P E d W,
    <[next w := vscode.EventEmitter_new]> (adapterStreams w) !! P = Some E →
    (d, W) ∈ vscode.listeners E → P = next w) as Hadapters.
  { intros P E d W. destruct (decide (next w = P)) as [<-|Hne]; [done|].
    rewrite lookup_insert_ne by done. intros HE. rewrite (HA _ _ HE).
    by intros ?%elem_of_nil. }
  destruct model as [m|m|h]; unfold update_construct; cbn; split; try done.
  - intros M d P. unfold modelStream at 1. cbn. rewrite lookup_insert.
    destruct (decide (streamOf m = M)) as [<-|Hne]; cbn.
    + rewrite event_listeners by apply Hlive.
      unfold modelStream in HM |- *. cbn. rewrite HM. cbn.
      by intros [= _ ->]%list_elem_of_singleton.
    + fold (modelStream w M). rewrite HM. by intros ?%elem_of_nil.
  - intros M d P. change (modelStream _ M) with (modelStream w M).
    rewrite HM. by intros ?%elem_of_nil.
  - intros M d P. change (modelStream _ M) with (modelStream w M).
    rewrite HM. by intros ?%elem_of_nil.
Qed.

Lemma fireOutward_log (W : nat) (e : value) (w : World) :
  ∃ a, fireOutward W e w = log a w.
Proof.
  unfold fireOutward. destruct (outwardStreams w !! W) as [E|].
  - destruct (vscode.disposed E); eauto. exists []. by rewrite log_nil.
  - exists []. by rewrite log_nil.
Qed.

Lemma instants_calm (model : Model) (s : State) :
  Inv s → Forall (λ s', ∃ P0, calm (world s') P0) (s :: update_instants model s).
Proof.
  intros HI. pose proof (release_spec s HI) as (Hq & _ & _ & _ & Hlive & _).
  pose proof (construct_calm model _ Hq Hlive) as H3.
  unfold update_instants. repeat apply Forall_cons_2; [..|apply Forall_nil_2].
  - by apply Inv_calm.
  - by apply releaseListener_calm.
  - exists 0. by apply quiet_calm.
  - eauto.
  - eexists. eapply calm_frame; [..|exact H3];
      unfold update_fire; simpl;
      by destruct (fireOutward_log (_onDidChange (this (update_construct model
           (update_releaseProvider (update_releaseListener s))))) undefined
           (world (update_construct model
           (update_releaseProvider (update_releaseListener s))))) as [a ->].
  - apply Inv_calm. by apply update_spec.
Qed.

(** ** The trace of [update] *)

Lemma filter_none (f : Action → bool) (l : list Action) :
  Forall (λ a, f a = false) l → List.filter f l = [].
Proof. induction 1 as [|a l Ha _ IH]; simpl; [done|]. by rewrite Ha. Qed.

Lemma not_fired_in (k : nat) (e : value) (l : list Action) :
  Forall (λ a, adapterOf a = None) l → Fired (AdapterStream k) e ∉ l.
Proof. rewrite Forall_forall. intros H Hin. by specialize (H _ Hin). Qed.

Lemma release_not_fired (l : list Action) :
  Forall (λ a, isRelease a = true) l → Forall (λ a, isFired a = false) l.
Proof. intros H. eapply Forall_impl; [exact H|]. by intros []. Qed.

Lemma build_not_fired (l : list Action) :
  Forall (λ a, isBuild a = true) l → Forall (λ a, isFired a = false) l.
Proof. intros H. eapply Forall_impl; [exact H|]. by intros []. Qed.

Lemma build_not_release (l : list Action) :
  Forall (λ a, isBuild a = true) l → Forall (λ a, isRelease a = false) l.
Proof. intros H. eapply Forall_impl; [exact H|]. by intros []. Qed.

Lemma deliveries_not_fired (e : value) (hosts : list nat) :
  Forall (λ a, isFired a = false) ((λ h, Delivered h e) <$> hosts).
Proof. by apply Forall_fmap, Forall_true. Qed.

Lemma deliveries_not_release (e : value) (hosts : list nat) :
  Forall (λ a, isRelease a = false) ((λ h, Delivered h e) <$> hosts).
Proof. by apply Forall_fmap, Forall_true. Qed.

Lemma deliveries_adapterOf (e : value) (hosts : list nat) :
  Forall (λ a, adapterOf a = None) ((λ h, Delivered h e) <$> hosts).
Proof. by apply Forall_fmap, Forall_true. Qed.

Lemma update_new_emitter_silent (model : Model) (s : State) (p : Provider) :
  Inv s →
  _provider (this (update model s)) = Some p →
  ∀ e, Fired (AdapterStream (onDidChangeTreeData p)) e ∉ trace (world (update model s)).
Proof.
  intros HI Hp e.
  destruct (update_spec model s HI) as
    [_ (E0 & build & d & p' & HE0 & _ & HW & Htr & Hb & Hbn & Hp' & HE & Hl)].
  rewrite Hp in Hp'. injection Hp' as <-.
  rewrite Htr, HE.
  intros [Hin|Hin]%elem_of_app; [pose proof (inv_fresh s HI _ _ Hin); lia|].
  apply elem_of_app in Hin as [Hin|Hin];
    [by apply (not_fired_in _ _ _ (release_adapterOf _ (releaseActions_release _))) in Hin|].
  apply elem_of_app in Hin as [Hin|Hin].
  { apply elem_of_cons in Hin as [|Hin]; [done|].
    by apply (not_fired_in _ _ _ Hbn) in Hin. }
  apply elem_of_cons in Hin as [|Hin]; [done|].
  apply elem_of_app in Hin as [Hin|Hin].
  - by apply (not_fired_in _ _ _ (deliveries_adapterOf _ _)) in Hin.
  - by apply list_elem_of_singleton in Hin.
Qed.

(** C1: every call of [update], whatever the model, does the following and
    nothing else that is observable: it releases and builds, and none of that
    fires an event; it fires the façade's emitter once, without payload, and
    every host listener observes it; last of all it subscribes the façade to
    the stream of the new adapter.  That [fire] is the only event fired during
    the call, and when [update] returns nothing has ever been fired on the
    stream of the new adapter. *)
Theorem C1_update_fires_one_refresh (model : Model) (s : State) :
  reachable s →
  let W := _onDidChange (this s) in
  let s' := update model s in
  ∃ (E0 : vscode.EventEmitter nat) (pre : list Action) (d : nat) (p : Provider),
    outwardStreams (world s) !! W = Some E0
    ∧ _onDidChange (this s') = W
    ∧ trace (world s')
      = trace (world s) ++ pre
          ++ Fired (OutwardStream W) undefined
             :: ((λ h, Delivered h undefined) <$> (vscode.listeners E0).*2)
          ++ [Subscribed (AdapterStream (onDidChangeTreeData p)) d]
    ∧ Forall (λ a, isFired a = false) pre
    ∧ List.filter isFired (drop (length (trace (world s))) (trace (world s')))
      = [Fired (OutwardStream W) undefined]
    ∧ _provider (this s') = Some p
    ∧ _providerListener (this s')
      = Some {| on := AdapterStream (onDidChangeTreeData p); handle := d |}
    ∧ ∀ e, Fired (AdapterStream (onDidChangeTreeData p)) e ∉ trace (world s').
Proof.
  intros HI%Inv_reachable W s'.
  destruct (update_spec model s HI) as
    [_ (E0 & build & d & p & HE0 & _ & HW & Htr & Hb & Hbn & Hp & HE & Hl)].
  pose proof (releaseActions_release (this s)) as Hrel.
  set (rel := releaseActions (this s)) in *.
  exists E0, (rel ++ Created (AdapterStream (next (world s))) :: build), d, p.
  assert (Forall (λ a, isFired a = false)
            (rel ++ Created (AdapterStream (next (world s))) :: build)) as Hpre.
  { apply Forall_app_2; [by apply release_not_fired|].
    apply Forall_cons_2; [done|by apply build_not_fired]. }
  rewrite HE. split_and!; try done.
  - subst s'. rewrite Htr. by rewrite <- !app_assoc.
  - subst s'. rewrite Htr, drop_app_length, (app_assoc rel).
    rewrite List.filter_app, (filter_none _ _ Hpre). simpl.
    by rewrite List.filter_app, (filter_none _ _ (deliveries_not_fired _ _)).
  - rewrite <- HE. by apply update_new_emitter_silent.
Qed.

(** ** What travels from a model to the host *)

(** C2: with a references provider bound, an event [e] of its model goes out
    on the provider's stream exactly once: as [e] itself when [e] is a file
    item, as [undefined] otherwise (no payload included); the façade passes it
    on unchanged and every host listener observes it. *)
Theorem C2_references_adapter_forwards (s : State) (E : nat) (l : Disposable)
    (m : ReferencesModel) (e : value) :
  reachable s →
  _provider (this s) = Some (ReferencesProvider E l m) →
  ∃ (E0 : vscode.EventEmitter nat) (forwarded : value),
    outwardStreams (world s) !! _onDidChange (this s) = Some E0
    ∧ trace (world (modelFires (streamOf m) e s))
      = trace (world s)
          ++ [ Fired (ModelStream (streamOf m)) e;
               Fired (AdapterStream E) forwarded;
               Fired (OutwardStream (_onDidChange (this s))) forwarded ]
          ++ ((λ h, Delivered h forwarded) <$> (vscode.listeners E0).*2)
    ∧ match e with
      | Obj (IsFileItem f) => forwarded = Obj (IsFileItem f)
      | _ => forwarded = undefined
      end.
Proof.
  intros HI%Inv_reachable Hp.
  destruct (inv_outward s HI) as (E0 & HE0 & Hd).
  exists E0, (normalized e). split; [done|]. split.
  - unfold modelFires. simpl. by erewrite fireModel_bound.
  - by destruct e as [|[]|].
Qed.

(** Nothing is ever fired on the stream of an adapter without [dispose]. *)
Lemma silent_reachable (s : State) :
  reachable s →
  ∀ p, _provider (this s) = Some p → hasDispose p = false →
       ∀ e, Fired (AdapterStream (onDidChangeTreeData p)) e ∉ trace (world s).
Proof.
  unfold reachable, evolves. intros Hs. pattern s. revert s Hs.
  apply rtc_ind_r; [done|]. intros s s' Hs Hstep IH.
  pose proof (Inv_reachable s Hs) as HI.
  destruct Hstep as [h s|M e' s|model s]; intros p Hp Hnd e.
  - unfold hostSubscribe. cbn. rewrite elem_of_app.
    intros [Hin|Hin%list_elem_of_singleton]; [|done]. by eapply IH.
  - unfold modelFires in *. simpl in *.
    destruct (fireModel_log M e' s HI) as (a & -> & _ & Ha).
    rewrite Ha by (intros p' Hp'; congruence).
    cbn. rewrite elem_of_app.
    intros [Hin|Hin%list_elem_of_singleton]; [|done]. by eapply IH.
  - by apply update_new_emitter_silent.
Qed.

(** C5, as the code has it: the constructor of [CallItemDataProvider]
    subscribes to nothing and no code fires [_emitter].  While a call
    adapter is bound it has no listener on any model stream, nothing has been
    fired on its stream, and an event a model fires reaches neither its stream
    nor the host. *)
Theorem C5_call_adapter_stream_is_silent (s : State) (E : nat) (m : CallsModel) :
  reachable s →
  _provider (this s) = Some (CallItemDataProvider E m) →
  ¬ subscribedToModel (world s) E
  ∧ (∀ e, Fired (AdapterStream E) e ∉ trace (world s))
  ∧ ∀ M e, trace (world (modelFires M e s))
           = trace (world s) ++ [Fired (ModelStream M) e].
Proof.
  intros Hs Hp. pose proof (Inv_reachable s Hs) as HI. split_and!.
  - intros (M & d & Hin)%subscribedToModel_spec.
    pose proof (inv_slot s HI) as Hslot.
    unfold slot in Hslot. rewrite Hp in Hslot.
    destruct (_providerListener (this s)); [|done].
    destruct Hslot as (_ & _ & _ & HM & _). simpl in HM.
    rewrite HM in Hin. by apply elem_of_nil in Hin.
  - apply (silent_reachable s Hs _ Hp eq_refl).
  - intros M e. unfold modelFires. simpl.
    rewrite fireModel_unbound; [done|done|]. intros ??? H. congruence.
Qed.

(** One step keeps the façade's emitter and the listeners on it. *)
(** ** The façade's emitter *)

Lemma outward_step (s s' : State) (E : vscode.EventEmitter nat) :
  Inv s → step s s' →
  outwardStreams (world s) !! _onDidChange (this s) = Some E →
  _onDidChange (this s') = _onDidChange (this s)
  ∧ ∃ E', outwardStreams (world s') !! _onDidChange (this s) = Some E'
          ∧ vscode.listeners E `prefix_of` vscode.listeners E'.
Proof.
  intros HI Hstep HE. destruct Hstep as [h s|M e s|model s].
  - split; [done|]. unfold hostSubscribe. cbn.
    rewrite lookup_alter_eq, HE. eexists. split; [done|].
    destruct (inv_outward s HI) as (E0 & HE0 & Hd).
    rewrite HE in HE0. injection HE0 as <-.
    rewrite event_listeners by done. by apply prefix_app_r.
  - split; [done|]. unfold modelFires. simpl.
    destruct (fireModel_log M e s HI) as (a & -> & _). eauto.
  - destruct (update_spec model s HI) as
      [_ (E0 & build & d & p & HE0 & Hout & HW & _)].
    split; [done|]. rewrite Hout. eauto.
Qed.

Lemma outward_evolves (s s' : State) (E : vscode.EventEmitter nat) :
  Inv s → evolves s s' →
  outwardStreams (world s) !! _onDidChange (this s) = Some E →
  _onDidChange (this s') = _onDidChange (this s)
  ∧ ∃ E', outwardStreams (world s') !! _onDidChange (this s) = Some E'
          ∧ vscode.listeners E `prefix_of` vscode.listeners E'.
Proof.
  intros HI Hev. revert E HI.
  induction Hev as [s|s s1 s' Hstep Hev IH]; intros E HI HE.
  - split; [done|]. eauto.
  - destruct (outward_step s s1 E HI Hstep HE) as (HW & E1 & HE1 & Hpre).
    rewrite <- HW in HE1.
    destruct (IH E1 (Inv_step _ _ Hstep HI) HE1) as (HW' & E' & HE' & Hpre').
    split; [congruence|]. exists E'. rewrite <- HW. split; [done|].
    by etrans.
Qed.

Lemma updates_evolve (models : list Model) (s : State) :
  evolves s (foldl (λ s' model, update model s') s models).
Proof.
  revert s. induction models as [|model models IH]; intros s; simpl.
  - apply rtc_refl.
  - eapply rtc_l; [apply step_update|apply IH].
Qed.

(** C6: however the façade gets from [s] to [s'] ([update]s, host
    subscriptions, model events, in any number and order), [_onDidChange] is
    the same emitter, it is not disposed, every listener the host had on it
    in [s] is still on it in [s'], and an event fired on the stream of the
    adapter bound in [s'] is fired on that emitter with the same payload and
    observed by every host listener. *)
Theorem C6_outward_emitter_never_replaced (s s' : State) :
  reachable s → evolves s s' →
  let W := _onDidChange (this s) in
  _onDidChange (this s') = W
  ∧ ∃ E E' : vscode.EventEmitter nat,
      outwardStreams (world s) !! W = Some E
      ∧ outwardStreams (world s') !! W = Some E'
      ∧ vscode.disposed E' = false
      ∧ vscode.listeners E `prefix_of` vscode.listeners E'
      ∧ ∀ (p : Provider) (e : value),
          _provider (this s') = Some p →
          trace (fireAdapter (onDidChangeTreeData p) e (world s'))
          = trace (world s')
              ++ Fired (AdapterStream (onDidChangeTreeData p)) e
                 :: Fired (OutwardStream W) e
                 :: ((λ h, Delivered h e) <$> (vscode.listeners E').*2).
Proof.
  intros HI%Inv_reachable Hev W.
  destruct (inv_outward s HI) as (E & HE & Hd).
  destruct (outward_evolves s s' E HI Hev HE) as (HW & E' & HE' & Hpre).
  pose proof (Inv_evolves s s' Hev HI) as HI'.
  destruct (inv_outward s' HI') as (E'' & HE'' & Hd').
  rewrite HW, HE' in HE''. injection HE'' as <-.
  split; [done|]. exists E, E'. split_and!; try done.
  intros p e Hp. pose proof (inv_slot s' HI') as Hslot.
  unfold slot in Hslot. rewrite Hp in Hslot.
  destruct (_providerListener (this s')) as [d|]; [|done].
  destruct Hslot as (_ & HP & _).
  erewrite fireAdapter_single by exact HP.
  erewrite fireOutward_live; [|by rewrite HW|done].
  by rewrite log_log, HW.
Qed.

(** C7: in every state the façade can reach, and after every statement of an
    [update] started there, at most one adapter is subscribed to a model
    stream and at most one adapter carries a listener of the façade (the slot
    [_provider] itself holds one adapter or none).  In the trace of [update]
    the disposals of the previous listener and provider come first; the
    emitter of the new adapter is created after them, and nothing is disposed
    from then on. *)
Theorem C7_one_adapter_at_a_time (model : Model) (s : State) :
  reachable s →
  Forall (λ s', atMostOne (subscribedToModel (world s'))
                ∧ atMostOne (subscribedToAdapter (world s')))
    (s :: update_instants model s)
  ∧ ∃ (rest : list Action) (p : Provider),
      trace (world (update model s))
      = trace (world s) ++ releaseActions (this s)
          ++ Created (AdapterStream (onDidChangeTreeData p)) :: rest
      ∧ Forall (λ a, isRelease a = true) (releaseActions (this s))
      ∧ Forall (λ a, isRelease a = false) rest
      ∧ _provider (this (update model s)) = Some p.
Proof.
  intros HI%Inv_reachable. split.
  - eapply Forall_impl; [by apply instants_calm|].
    intros s' [P0 Hcalm]. by eapply calm_atMostOne.
  - destruct (update_spec model s HI) as
      [_ (E0 & build & d & p & HE0 & _ & HW & Htr & Hb & Hbn & Hp & HE & Hl)].
    eexists _, p. rewrite HE.
    split_and!; [by rewrite Htr|apply releaseActions_release| |done].
    apply Forall_app_2; [by apply build_not_release|].
    apply Forall_cons_2; [done|].
    apply Forall_app_2; [apply deliveries_not_release|by repeat constructor].
Qed.

(** * Further properties *)

(** ** The queries *)

(** X1: whatever was bound before, after [update] the façade's root query
    answers with the roots of the new model: the files of a references model,
    the roots of a calls model, the items of the history in their order. *)
Theorem X1_roots_after_update (model : Model) (s : State) :
  getChildren (this (update model s)) None = Returned (Some (rootsOf model)).
Proof.
  unfold getChildren. rewrite update_provider.
  by destruct model.
Qed.

(** X2: after [update] with a calls model the façade answers the children of
    a call item with what the model resolves for it, and its parent with the
    parent the item stores, without asking the model. *)
Theorem X2_call_hierarchy_after_update (m : CallsModel) (s : State) (c : CallItem) :
  getChildren (this (update (IsCallsModel m) s)) (Some (IsCallItem c))
  = Returned (Some (IsCallItem <$> resolveCalls m c))
  ∧ getParent (this (update (IsCallsModel m) s)) (IsCallItem c)
    = Returned (IsCallItem <$> CallItem_parent c).
Proof.
  unfold getChildren, getParent. rewrite update_provider. done.
Qed.

(** X3: with a references provider bound and a file item whose results all
    name it as their parent, the façade returns one child for every result,
    each child's parent is that file item again, and no child has children
    ([undefined]). *)
Theorem X3_search_children_parent_round_trip (w : TreeDataProviderWrapper) (E : nat)
    (l : Disposable) (m : ReferencesModel) (f : FileItem) :
  _provider w = Some (ReferencesProvider E l m) →
  (∀ r, r ∈ FileItem_results f → ReferenceItem_parent r = f) →
  ∃ children : list TreeItem,
    getChildren w (Some (IsFileItem f)) = Returned (Some children)
    ∧ length children = length (FileItem_results f)
    ∧ ∀ c, c ∈ children →
        getParent w c = Returned (Some (IsFileItem f))
        ∧ getChildren w (Some c) = Returned None.
Proof.
  intros Hp Hwf. unfold getChildren, getParent. rewrite Hp. simpl.
  eexists. split; [done|]. split; [by rewrite length_fmap|].
  intros c (r & -> & Hr)%list_elem_of_fmap. simpl. by rewrite (Hwf r Hr).
Qed.

(** X4: the references and the history adapter answer [getChildren] and
    [getParent] for an element of any class, a node left over from a
    previous model included, without throwing.  The references adapter has
    children for file items only and a parent for reference items only; the
    history adapter answers the whole history and no parent whatever is
    asked. *)
Theorem X4_stale_elements_do_not_fault (w : TreeDataProviderWrapper)
    (p : Provider) (t : TreeItem) :
  _provider w = Some p →
  (∀ E m, p ≠ CallItemDataProvider E m) →
  ∃ (children : option (list TreeItem)) (parent : option TreeItem),
    getChildren w (Some t) = Returned children
    ∧ getParent w t = Returned parent
    ∧ (∀ E l m, p = ReferencesProvider E l m →
         (is_Some children ↔ ∃ f, t = IsFileItem f)
         ∧ (is_Some parent ↔ ∃ r, t = IsReferenceItem r))
    ∧ (∀ E h, p = HistoryDataProvider E h →
         children = Some (IsHistoryItem <$> h) ∧ parent = None).
Proof.
  intros Hp Hcall. unfold getChildren, getParent. rewrite Hp.
  destruct p as [E l m|E m|E h]; [|by destruct (Hcall E m)|]; simpl.
  - eexists _, _. split_and!; [done|done| |done].
    intros _ _ _ _. destruct t; simpl; split; split;
      first [by intros [? [=]] | by intros [? ?] | by eauto].
  - eexists _, _. split_and!; [done|done|done|].
    by intros ? ? [= _ <-].
Qed.

(** X5: the references adapter renders an item as collapsed exactly when
    [getChildren] answers a sequence for it, and as not collapsible exactly
    when [getChildren] answers [undefined]. *)
Theorem X5_expandable_iff_children (m : ReferencesModel) (t : TreeItem)
    (item : rendered) :
  ReferencesProvider_getTreeItem t = Returned item →
  (vscode.collapsibleState item = Some vscode.Collapsed
   ↔ is_Some (ReferencesProvider_getChildren m (Some t)))
  ∧ (vscode.collapsibleState item = Some vscode.None_
     ↔ ReferencesProvider_getChildren m (Some t) = None).
Proof.
  destruct t as [f|r|h|c]; simpl; try done.
  - intros [= <-]. simpl.
    split; split; first [done | by eauto | by intros [? ?]].
  - destruct (FileItem_getDocument _); [|done].
    intros [= <-]. simpl.
    split; split; first [done | by eauto | by intros [? ?]].
Qed.

(** X8: the context value of an item the façade renders is set by the
    adapter that is bound, not by the class of the element: [file-item] or
    [reference-item] by the references adapter (by [instanceof FileItem]),
    [call-item] by the call adapter, [history-item] by the history adapter.
    The history adapter renders every element it is given, a node of another
    class included, as [history-item]. *)
Theorem X8_context_value_by_adapter (w : TreeDataProviderWrapper)
    (p : Provider) (t : TreeItem) :
  _provider w = Some p →
  (∀ item : rendered,
     getTreeItem w t = Returned item →
     vscode.contextValue item = Some (contextGiven p t))
  ∧ ((∃ E h, p = HistoryDataProvider E h) →
     ∃ item : rendered,
       getTreeItem w t = Returned item
       ∧ vscode.contextValue item = Some "history-item").
Proof.
  intros Hp. unfold getTreeItem. rewrite Hp. split.
  - intros item. destruct p as [E l m|E m|E h]; destruct t as [f|r|h'|c];
      simpl; try done; try (by intros [= <-]).
    destruct (FileItem_getDocument _); [|done]. by intros [= <-].
  - intros (E & h & ->). eexists. split; reflexivity.
Qed.

(** X9: an item the façade renders has no command when the references
    adapter rendered it from a file item; in every other case it has the
    command [references-view.show] with the element it was rendered from as
    its only argument, also when the history adapter renders an element of
    another class. *)
Theorem X9_command_carries_element (w : TreeDataProviderWrapper)
    (p : Provider) (t : TreeItem) (item : rendered) :
  _provider w = Some p →
  getTreeItem w t = Returned item →
  match p, t with
  | ReferencesProvider _ _ _, IsFileItem _ => vscode.item_command item = None
  | _, _ => ∃ cmd, vscode.item_command item = Some cmd
                   ∧ vscode.command cmd = "references-view.show"
                   ∧ vscode.arguments cmd = [t]
  end.
Proof.
  intros Hp. unfold getTreeItem. rewrite Hp.
  destruct p as [E l m|E m|E h]; destruct t as [f|r|h'|c]; simpl; try done;
    try (by intros [= <-]); try (intros [= <-]; simpl; by eauto).
  destruct (FileItem_getDocument _); [|done]. intros [= <-]. simpl. eauto.
Qed.

(** X10: a call item is rendered with an icon exactly when its kind is one of
    the 26 symbol kinds; a kind outside the table renders without icon and
    without failing. *)
Theorem X10_icon_iff_symbol_kind (c : CallItem) :
  is_Some (vscode.iconPath (CallItemDataProvider_getTreeItem c))
  ↔ CallItem_kind c < 26.
Proof.
  unfold CallItemDataProvider_getTreeItem. simpl.
  generalize (CallItem_kind c). intros kind. split.
  - intros [icon H]. destruct (decide (kind < 26)) as [|Hge]; [done|].
    rewrite getThemeIcon_outside in H by lia. done.
  - intros H. do 26 (destruct kind as [|kind]; [by vm_compute; eauto|]). lia.
Qed.

(** X11: two symbol kinds that get the same icon are the same kind: the
    table gives every kind an icon of its own. *)
Theorem X11_icons_distinct (k1 k2 : vscode.SymbolKind) :
  CallItemDataProvider_getThemeIcon (vscode.SymbolKind_value k1)
  = CallItemDataProvider_getThemeIcon (vscode.SymbolKind_value k2) →
  k1 = k2.
Proof. destruct k1, k2; try reflexivity; vm_compute; intros [=]. Qed.

Lemma string_length_app (a b : string) :
  String.length (a +:+ b) = String.length a + String.length b.
Proof. induction a as [|x a IH]; simpl; [done|]. by rewrite IH. Qed.

(** X6: through the façade a reference item is rendered if and only if the
    document of its file loads; when it does not, the promise of
    [getTreeItem] rejects.  A file item is rendered from its uri, with the
    file icon, without loading a document. *)
Theorem X6_rendering_needs_the_document (w : TreeDataProviderWrapper) (E : nat)
    (l : Disposable) (m : ReferencesModel) (r : ReferenceItem) (f : FileItem) :
  _provider w = Some (ReferencesProvider E l m) →
  ((∃ item, getTreeItem w (IsReferenceItem r) = Returned item)
   ↔ is_Some (FileItem_getDocument (ReferenceItem_parent r)))
  ∧ (FileItem_getDocument (ReferenceItem_parent r) = None →
     getTreeItem w (IsReferenceItem r) = Thrown Rejected)
  ∧ ∃ item, getTreeItem w (IsFileItem f) = Returned item
            ∧ vscode.head item = vscode.OfUri (FileItem_uri f)
            ∧ vscode.iconPath item = Some vscode.ThemeIcon_File.
Proof.
  intros Hp. unfold getTreeItem. rewrite Hp. simpl.
  destruct (FileItem_getDocument _) as [doc|]; split_and!; try done; eauto.
  - split; eauto.
  - split; [by intros [? ?]|by intros [? ?]].
Qed.

(** X7: every highlight of a rendered reference item is a span inside its
    label: start before end, end no further than the length of the label. *)
Theorem X7_highlight_within_label (r : ReferenceItem) (item : rendered) :
  ReferencesProvider_getTreeItem (IsReferenceItem r) = Returned item →
  ∃ l : vscode.TreeItemLabel,
    vscode.head item = vscode.OfTreeItemLabel l
    ∧ ∀ a b, (a, b) ∈ vscode.highlights l →
        a ≤ b ∧ b ≤ String.length (vscode.label l).
Proof.
  unfold ReferencesProvider_getTreeItem.
  destruct (FileItem_getDocument _) as [doc|]; [|done].
  intros [= <-]. eexists. split; [reflexivity|]. simpl.
  intros a b [= -> ->]%list_elem_of_singleton.
  rewrite !string_length_app. lia.
Qed.

Lemma fireModel_payloads (M : nat) (e : value) (s : State) :
  Inv s →
  ∃ a, fireModel M e (world s) = log a (world s)
       ∧ Forall (λ x, payloadOk x = true) a.
Proof.
  intros HI.
  assert (refreshOrFile (normalized e) = true) as Hn.
  { by destruct e as [|[]|]. }
  destruct (_provider (this s)) as [[E l m|E m|E h]|] eqn:Hp.
  - destruct (decide (M = streamOf m)) as [->|Hne].
    + destruct (inv_outward s HI) as (E0 & HE0 & Hd).
      eexists. split; [by eapply fireModel_bound|].
      repeat apply Forall_cons_2; try done.
      apply Forall_fmap, Forall_true. by intros h.
    + eexists. split; [apply fireModel_unbound; [done|]|by repeat constructor].
      intros ??? H. rewrite Hp in H. by injection H as <- <- <-.
  - eexists. split; [apply fireModel_unbound; [done|]|by repeat constructor].
    intros ??? H. by rewrite Hp in H.
  - eexists. split; [apply fireModel_unbound; [done|]|by repeat constructor].
    intros ??? H. by rewrite Hp in H.
  - eexists. split; [apply fireModel_unbound; [done|]|by repeat constructor].
    intros ??? H. by rewrite Hp in H.
Qed.

(** X17: in every trace the façade can produce, whatever is fired on an
    adapter's stream or on the façade's emitter, or delivered to a host,
    carries no payload or a file item, never a reference, call or history
    item. *)
Theorem X17_host_sees_refresh_or_file (s : State) :
  reachable s → Forall (λ a, payloadOk a = true) (trace (world s)).
Proof.
  unfold reachable, evolves. intros Hs. pattern s. revert s Hs.
  apply rtc_ind_r; [by repeat constructor|]. intros s s' Hs Hstep IH.
  pose proof (Inv_reachable s Hs) as HI.
  destruct Hstep as [h s|M e s|model s].
  - unfold hostSubscribe. cbn. apply Forall_app_2; [done|by repeat constructor].
  - unfold modelFires. simpl.
    destruct (fireModel_payloads M e s HI) as (a & -> & Ha).
    by apply Forall_app_2.
  - destruct (update_spec model s HI) as
      [_ (E0 & build & d & p & _ & _ & _ & -> & Hb & _)].
    apply Forall_app_2; [done|]. apply Forall_app_2.
    { eapply Forall_impl; [apply releaseActions_release|]. by intros []. }
    apply Forall_app_2.
    { apply Forall_cons_2; [done|]. eapply Forall_impl; [exact Hb|]. by intros []. }
    apply Forall_cons_2; [done|]. apply Forall_app_2; [|by repeat constructor].
    apply Forall_fmap, Forall_true. by intros h.
Qed.

(** ** What is left after a swap *)

(** X12: in every state the façade can reach, the listeners of this file
    that are still subscribed are those of the adapter in the slot and no
    others: an adapter is on a model stream exactly when it is the bound
    references provider, and carries a listener of the façade exactly when
    it is the bound adapter.  Earlier adapters leave nothing behind. *)
Theorem X12_no_listener_leak (s : State) :
  reachable s →
  (∀ P, subscribedToModel (world s) P
        ↔ ∃ l m, _provider (this s) = Some (ReferencesProvider P l m))
  ∧ (∀ P, subscribedToAdapter (world s) P
          ↔ ∃ p, _provider (this s) = Some p ∧ onDidChangeTreeData p = P).
Proof.
  intros HI%Inv_reachable. pose proof (inv_slot s HI) as Hslot.
  unfold slot in Hslot.
  destruct (_provider (this s)) as [p|], (_providerListener (this s)) as [d|];
    try done.
  - destruct Hslot as (_ & HP & _ & Hb & Hothers). split; intros P.
    + rewrite subscribedToModel_spec. split.
      * intros (M & d' & Hin). destruct p as [E l m|E m|E h]; simpl in Hb.
        -- destruct Hb as (_ & HM & HMs).
           destruct (decide (M = streamOf m)) as [->|Hne].
           ++ rewrite HM in Hin. apply list_elem_of_singleton in Hin.
              injection Hin as _ ->. eauto.
           ++ rewrite (HMs _ Hne) in Hin. by apply elem_of_nil in Hin.
        -- rewrite Hb in Hin. by apply elem_of_nil in Hin.
        -- rewrite Hb in Hin. by apply elem_of_nil in Hin.
      * intros (l & m & [= ->]). simpl in Hb. destruct Hb as (_ & HM & _).
        exists (streamOf m), (handle l). rewrite HM. by apply list_elem_of_singleton.
    + rewrite subscribedToAdapter_spec. split.
      * intros (E & d' & W & HE & Hin). exists p. split; [done|].
        destruct (decide (P = onDidChangeTreeData p)) as [|Hne]; [done|].
        rewrite (Hothers _ _ Hne HE) in Hin. by apply elem_of_nil in Hin.
      * intros (p' & [= <-] & <-). eexists _, _, _. split; [exact HP|].
        by apply list_elem_of_singleton.
  - destruct Hslot as [HM HA]. split; intros P.
    + rewrite subscribedToModel_spec. split.
      * intros (M & d & Hin). rewrite HM in Hin. by apply elem_of_nil in Hin.
      * by intros (l & m & ?).
    + rewrite subscribedToAdapter_spec. split.
      * intros (E & d & W & HE & Hin). rewrite (HA _ _ HE) in Hin.
        by apply elem_of_nil in Hin.
      * by intros (p & ? & _).
Qed.

(** X13: after [update], an event on the stream of any model other than a
    references model just bound reaches no adapter and no host: the model
    shown before is no longer listened to. *)
Theorem X13_only_bound_model_is_heard (model : Model) (s : State) (M : nat)
    (e : value) :
  reachable s →
  (∀ m, model = IsReferencesModel m → streamOf m ≠ M) →
  trace (world (modelFires M e (update model s)))
  = trace (world (update model s)) ++ [Fired (ModelStream M) e].
Proof.
  intros HI%Inv_reachable Hne.
  pose proof (proj1 (update_spec model s HI)) as HI'.
  unfold modelFires. simpl. rewrite fireModel_unbound; [done|done|].
  intros E l m. rewrite update_provider.
  destruct model as [m'|m'|h]; simpl; try done.
  intros [= _ _ <-] Heq. by apply (Hne m' eq_refl).
Qed.

Lemma update_adapters_frame (model : Model) (s2 : State) (P : nat) :
  P ≠ next (world s2) →
  adapterStreams
    (world (update_subscribe (update_fire (update_construct model s2)))) !! P
  = adapterStreams (world s2) !! P.
Proof.
  intros Hne. destruct s2 as [w t].
  destruct model as [m|m|h];
    unfold update_subscribe, update_fire, update_construct; cbn;
    match goal with
    | |- context [fireOutward ?W ?e ?w'] =>
        destruct (fireOutward_log W e w') as [a ->]
    end; cbn;
    by rewrite lookup_alter_ne, lookup_insert_ne.
Qed.

Lemma release_old_emitter (s : State) (p : Provider) :
  Inv s → _provider (this s) = Some p →
  adapterStreams (world (update_releaseProvider (update_releaseListener s)))
    !! onDidChangeTreeData p
  = Some {| vscode.listeners := []; vscode.disposed := hasDispose p |}.
Proof.
  intros [_ _ _ Hslot] Hp.
  destruct s as [w [p' l W]]. unfold slot in Hslot. simpl in *. subst p'.
  destruct l as [[o d]|]; [|done].
  destruct Hslot as (Ho & HP & _ & Hb & _). simpl in *. subst o.
  unfold update_releaseListener, update_releaseProvider. simpl.
  destruct p as [E [o l] m|E m|E h]; simpl in *.
  - destruct Hb as (Hl & _). simpl in Hl. subst o.
    unfold ReferencesProvider_dispose, Disposable_dispose. simpl.
    by rewrite !lookup_alter_eq, HP.
  - unfold Disposable_dispose. simpl. rewrite lookup_alter_eq, HP. simpl.
    unfold vscode.EventEmitter_remove. simpl. rewrite filter_cons. simpl.
    by destruct (decide (d ≠ d)).
  - unfold Disposable_dispose. simpl. rewrite lookup_alter_eq, HP. simpl.
    unfold vscode.EventEmitter_remove. simpl. rewrite filter_cons. simpl.
    by destruct (decide (d ≠ d)).
Qed.

(** X14: after [update] the emitter of the adapter bound before has no
    listener, and is disposed exactly when that adapter has [dispose] (a
    references provider).  Firing it reaches neither the façade nor a host:
    on a disposed emitter nothing happens at all. *)
Theorem X14_previous_adapter_cut_off (model : Model) (s : State) (p : Provider) :
  reachable s →
  _provider (this s) = Some p →
  let s' := update model s in
  let E := onDidChangeTreeData p in
  adapterStreams (world s') !! E
  = Some {| vscode.listeners := []; vscode.disposed := hasDispose p |}
  ∧ ∀ e, trace (fireAdapter E e (world s'))
         = trace (world s')
             ++ (if hasDispose p then [] else [Fired (AdapterStream E) e]).
Proof.
  intros HI%Inv_reachable Hp s' E.
  assert (adapterStreams (world s') !! E
          = Some {| vscode.listeners := []; vscode.disposed := hasDispose p |}) as HE.
  { subst s' E. unfold update. rewrite update_adapters_frame.
    - by apply release_old_emitter.
    - pose proof (release_spec s HI) as (_ & _ & _ & -> & _).
      pose proof (inv_slot s HI) as Hslot. unfold slot in Hslot.
      rewrite Hp in Hslot. destruct (_providerListener (this s)); [|done].
      destruct Hslot as (_ & _ & Hlt & _). lia. }
  split; [done|]. intros e. unfold fireAdapter. rewrite HE. simpl.
  destruct (hasDispose p); simpl; [by rewrite app_nil_r|done].
Qed.

(** ** Several updates in a row *)

Lemma update_fired_segment (model : Model) (s : State) :
  Inv s →
  ∃ seg, trace (world (update model s)) = trace (world s) ++ seg
         ∧ List.filter isFired seg
           = [Fired (OutwardStream (_onDidChange (this s))) undefined].
Proof.
  intros HI.
  destruct (update_spec model s HI) as
    [_ (E0 & build & d & p & HE0 & _ & HW & Htr & Hb & Hbn & Hp & HE & Hl)].
  eexists. split; [exact Htr|].
  rewrite List.filter_app,
    (filter_none _ _ (release_not_fired _ (releaseActions_release _))).
  simpl. rewrite List.filter_app, (filter_none _ _ (build_not_fired _ Hb)).
  simpl. by rewrite List.filter_app, (filter_none _ _ (deliveries_not_fired _ _)).
Qed.

Lemma updates_fired_segment (models : list Model) (s : State) :
  Inv s →
  let s' := foldl (λ s0 model, update model s0) s models in
  _onDidChange (this s') = _onDidChange (this s)
  ∧ ∃ seg, trace (world s') = trace (world s) ++ seg
           ∧ List.filter isFired seg
             = replicate (length models)
                 (Fired (OutwardStream (_onDidChange (this s))) undefined).
Proof.
  revert s. induction models as [|model models IH]; intros s HI; simpl.
  - split; [done|]. exists []. by rewrite app_nil_r.
  - pose proof (update_spec model s HI) as [HI1 (E0 & build & d & p & _ & _ & HW & _)].
    destruct (IH _ HI1) as (HW' & rest & Hrest & Hf').
    destruct (update_fired_segment model s HI) as (seg & Htr & Hf).
    rewrite HW in HW', Hf'. split; [done|].
    exists (seg ++ rest). split.
    + by rewrite Hrest, Htr, <- app_assoc.
    + by rewrite List.filter_app, Hf, Hf'.
Qed.

(** X15: a run of [update]s keeps the façade's emitter and fires it once per
    call, without payload; nothing else is fired during the run. *)
Theorem X15_one_refresh_per_update (models : list Model) (s : State) :
  reachable s →
  let s' := foldl (λ s0 model, update model s0) s models in
  _onDidChange (this s') = _onDidChange (this s)
  ∧ List.filter isFired (drop (length (trace (world s))) (trace (world s')))
    = replicate (length models)
        (Fired (OutwardStream (_onDidChange (this s))) undefined).
Proof.
  intros HI%Inv_reachable s'.
  destruct (updates_fired_segment models s HI) as (HW & seg & Htr & Hf).
  split; [done|]. subst s'. by rewrite Htr, drop_app_length.
Qed.

(** ** The history adapter's stream *)

(** X16: [HistoryDataProvider] subscribes to nothing and no code fires its
    emitter: while it is bound it has no listener on a model stream, nothing
    has been fired on its stream, and a model event reaches neither its
    stream nor the host. *)
Theorem X16_history_adapter_is_silent (s : State) (E : nat) (h : History) :
  reachable s →
  _provider (this s) = Some (HistoryDataProvider E h) →
  ¬ subscribedToModel (world s) E
  ∧ (∀ e, Fired (AdapterStream E) e ∉ trace (world s))
  ∧ ∀ M e, trace (world (modelFires M e s))
           = trace (world s) ++ [Fired (ModelStream M) e].
Proof.
  intros Hs Hp. pose proof (Inv_reachable s Hs) as HI. split_and!.
  - intros (M & d & Hin)%subscribedToModel_spec.
    pose proof (inv_slot s HI) as Hslot.
    unfold slot in Hslot. rewrite Hp in Hslot.
    destruct (_providerListener (this s)); [|done].
    destruct Hslot as (_ & _ & _ & HM & _). simpl in HM.
    rewrite HM in Hin. by apply elem_of_nil in Hin.
  - apply (silent_reachable s Hs _ Hp eq_refl).
  - intros M e. unfold modelFires. simpl.
    rewrite fireModel_unbound; [done|done|]. intros ??? H. congruence.
Qed.

End Properties.

(** * The code run on the small world *)

#[local] Existing Instance demo.collaborators.

Lemma reachable_step {C : Collaborators} (s s' : State) :
  reachable s → step s s' → reachable s'.
Proof. intros H Hstep. by eapply rtc_r. Qed.

Lemma reachable_hosted : reachable demo.hosted.
Proof. eapply reachable_step; [apply rtc_refl|apply step_hostSubscribe]. Qed.

Lemma reachable_searching : reachable demo.searching.
Proof. eapply reachable_step; [apply reachable_hosted|apply step_update]. Qed.

Lemma reachable_calling : reachable demo.calling.
Proof. eapply reachable_step; [apply reachable_searching|apply step_update]. Qed.

Lemma evolves_hosted_browsing : evolves demo.hosted demo.browsing.
Proof.
  eapply rtc_r; [eapply rtc_r; [eapply rtc_r; [apply rtc_refl|]|]|];
    apply step_update.
Qed.

(** The trace of the whole run, and what the last [update] leaves behind. *)
Example demo_trace :
  trace (world demo.browsing)
  = [ Created (OutwardStream 0); Subscribed (OutwardStream 0) 1;
      Created (AdapterStream 2); Subscribed (ModelStream 0) 3;
      Fired (OutwardStream 0) undefined; Delivered 7 undefined;
      Subscribed (AdapterStream 2) 4;
      ListenerDisposed (AdapterStream 2) 4; EmitterDisposed (AdapterStream 2);
      ListenerDisposed (ModelStream 0) 3;
      Created (AdapterStream 5);
      Fired (OutwardStream 0) undefined; Delivered 7 undefined;
      Subscribed (AdapterStream 5) 6;
      ListenerDisposed (AdapterStream 5) 6;
      Created (AdapterStream 7);
      Fired (OutwardStream 0) undefined; Delivered 7 undefined;
      Subscribed (AdapterStream 7) 8 ].
Proof. vm_compute. reflexivity. Qed.

(** Who is subscribed after each statement of the three [update]s: never
    more than one adapter on the model streams, never more than one under the
    façade. *)
Example demo_subscribers :
  (λ s, (modelSubscribers (world s), adapterSubscribers (world s)))
    <$> (update_instants (IsReferencesModel demo.modelA) demo.hosted
         ++ update_instants (IsCallsModel demo.calls) demo.searching
         ++ update_instants (IsHistory demo.history) demo.calling)
  = [ ([], []); ([], []); ([2], []); ([2], []); ([2], [2]);
      ([2], []); ([], []); ([], []); ([], []); ([], [5]);
      ([], []); ([], []); ([], []); ([], []); ([], [7]) ].
Proof. vm_compute. reflexivity. Qed.

(** A file item announced by the model reaches the host as it is; anything
    else reaches it as [undefined]. *)
Example demo_model_events :
  drop (length (trace (world demo.searching)))
    (trace (world (modelFires 0 (Obj (IsReferenceItem demo.match1))
                     (modelFires 0 (Obj (IsFileItem demo.file_a)) demo.searching))))
  = [ Fired (ModelStream 0) (Obj (IsFileItem demo.file_a));
      Fired (AdapterStream 2) (Obj (IsFileItem demo.file_a));
      Fired (OutwardStream 0) (Obj (IsFileItem demo.file_a));
      Delivered 7 (Obj (IsFileItem demo.file_a));
      Fired (ModelStream 0) (Obj (IsReferenceItem demo.match1));
      Fired (AdapterStream 2) undefined;
      Fired (OutwardStream 0) undefined;
      Delivered 7 undefined ].
Proof. vm_compute. reflexivity. Qed.

(** The scenarios of the specification. *)
Example demo_search_scenario :
  getChildren (this demo.searching) None = Returned (Some [IsFileItem demo.file_a])
  ∧ getChildren (this demo.searching) (Some (IsFileItem demo.file_a))
    = Returned (Some [ IsReferenceItem demo.match1;
                       IsReferenceItem demo.match2 ])
  ∧ getParent (this demo.searching) (IsReferenceItem demo.match2)
    = Returned (Some (IsFileItem demo.file_a)).
Proof. split_and!; by vm_compute. Qed.

Example demo_calls_scenario :
  getChildren (this demo.calling) None = Returned (Some [IsCallItem demo.foo])
  ∧ getChildren (this demo.calling) (Some (IsCallItem demo.foo))
    = Returned (Some [IsCallItem demo.bar])
  ∧ getParent (this demo.calling) (IsCallItem demo.bar)
    = Returned (Some (IsCallItem demo.foo))
  ∧ getParent (this demo.calling) (IsCallItem demo.foo) = Returned None.
Proof. split_and!; by vm_compute. Qed.

Example demo_history_scenario :
  getChildren (this demo.browsing) None
  = Returned (Some [IsHistoryItem demo.H1; IsHistoryItem demo.H2])
  ∧ getParent (this demo.browsing) (IsHistoryItem demo.H1) = Returned None.
Proof. split_and!; by vm_compute. Qed.

Lemma C9_witness :
  FileItem_getDocument (ReferenceItem_parent demo.match1)
  = Some "let foo = 1 + foo;"
  ∧ ∃ (item : rendered) (l : vscode.TreeItemLabel),
      ReferencesProvider_getTreeItem (IsReferenceItem demo.match1) = Returned item
      ∧ vscode.head item = vscode.OfTreeItemLabel l
      ∧ vscode.label l = "let foo = 1 + foo;"
      ∧ vscode.highlights l = [(4, 7)].
Proof.
  split; [reflexivity|].
  destruct (C9_reference_item_rendering demo.match1 "let foo = 1 + foo;" eq_refl)
    as (item & l & cmd & H1 & H2 & H3 & H4 & _).
  by exists item, l.
Defined.

Lemma C3_witness :
  _provider (this initial) = None
  ∧ getChildren (this initial) None = Returned None
  ∧ getParent (this initial) (IsHistoryItem demo.H1) = Returned None
  ∧ getTreeItem (this initial) (IsHistoryItem demo.H1) = Thrown TypeError.
Proof.
  split; [reflexivity|].
  apply (C3_unbound_children_parent (this initial) (IsHistoryItem demo.H1) None eq_refl).
Defined.

(** On the empty slot [getTreeItem] throws, where C3 as stated promises an
    empty result. *)
Lemma C3_counterexample :
  _provider (this initial) = None
  ∧ getTreeItem (this initial) (IsHistoryItem demo.H1) = Thrown TypeError
  ∧ faults (getTreeItem (this initial) (IsHistoryItem demo.H1)) = true.
Proof. split_and!; by vm_compute. Qed.

(** For a reference item the references adapter answers [undefined], and for
    a history item the history adapter answers the whole history: neither is
    the empty sequence C4 as stated promises. *)
Lemma C4_counterexample :
  ReferencesProvider_getChildren demo.modelA (Some (IsReferenceItem demo.match1))
  = None
  ∧ ReferencesProvider_getChildren demo.modelA (Some (IsReferenceItem demo.match1))
    ≠ Some []
  ∧ HistoryDataProvider_getChildren demo.history (Some (IsHistoryItem demo.H1))
    = [demo.H1; demo.H2]
  ∧ getChildren (this demo.browsing) (Some (IsHistoryItem demo.H1))
    = Returned (Some [IsHistoryItem demo.H1; IsHistoryItem demo.H2]).
Proof. split_and!; by vm_compute. Qed.

(** The call adapter is bound to [demo.calls], and that model fires its own
    change stream, once with a call item and once without payload: neither
    event appears on the adapter's stream, where C5 as stated has both appear
    unmodified.  Nothing else has ever used that stream. *)
Lemma C5_counterexample :
  _provider (this demo.calling) = Some (CallItemDataProvider 5 demo.calls)
  ∧ trace (world (modelFires (changeStream demo.calls) undefined
                    (modelFires (changeStream demo.calls)
                       (Obj (IsCallItem demo.bar)) demo.calling)))
    = trace (world demo.calling)
        ++ [ Fired (ModelStream (changeStream demo.calls))
               (Obj (IsCallItem demo.bar));
             Fired (ModelStream (changeStream demo.calls)) undefined ]
  ∧ List.filter (firedOn (AdapterStream 5))
      (trace (world (modelFires (changeStream demo.calls) undefined
                       (modelFires (changeStream demo.calls)
                          (Obj (IsCallItem demo.bar)) demo.calling))))
    = []
  ∧ modelStreams (world demo.calling) !! changeStream demo.calls = None.
Proof. split_and!; by vm_compute. Qed.

Lemma C5_witness :
  reachable demo.calling
  ∧ _provider (this demo.calling) = Some (CallItemDataProvider 5 demo.calls)
  ∧ trace (world (modelFires (changeStream demo.calls)
                    (Obj (IsCallItem demo.bar)) demo.calling))
    = trace (world demo.calling)
        ++ [Fired (ModelStream (changeStream demo.calls)) (Obj (IsCallItem demo.bar))].
Proof.
  split; [apply reachable_calling|]. split; [reflexivity|].
  apply (C5_call_adapter_stream_is_silent demo.calling 5 demo.calls
           reachable_calling eq_refl).
Defined.

Lemma C1_witness :
  reachable demo.searching
  ∧ ∃ (pre : list Action) (d : nat) (p : Provider),
      trace (world (update (IsHistory demo.history) demo.searching))
      = trace (world demo.searching) ++ pre
          ++ Fired (OutwardStream 0) undefined
             :: [Delivered 7 undefined]
          ++ [Subscribed (AdapterStream (onDidChangeTreeData p)) d].
Proof.
  split; [apply reachable_searching|].
  destruct (C1_update_fires_one_refresh (IsHistory demo.history) demo.searching
              reachable_searching)
    as (E0 & pre & d & p & HE0 & _ & Htr & _).
  exists pre, d, p. vm_compute in HE0. injection HE0 as <-. exact Htr.
Defined.

Lemma C2_witness :
  reachable demo.searching
  ∧ _provider (this demo.searching)
    = Some (ReferencesProvider 2 {| on := ModelStream 0; handle := 3 |} demo.modelA)
  ∧ ∃ E0 : vscode.EventEmitter nat,
      trace (world (modelFires 0 (Other 0) demo.searching))
      = trace (world demo.searching)
          ++ [ Fired (ModelStream 0) (Other 0);
               Fired (AdapterStream 2) undefined;
               Fired (OutwardStream 0) undefined ]
          ++ ((λ h, Delivered h undefined) <$> (vscode.listeners E0).*2).
Proof.
  split; [apply reachable_searching|]. split; [reflexivity|].
  destruct (C2_references_adapter_forwards demo.searching 2
              {| on := ModelStream 0; handle := 3 |} demo.modelA (Other 0)
              reachable_searching eq_refl)
    as (E0 & forwarded & _ & Htr & ->).
  by exists E0.
Defined.

Lemma C6_witness :
  reachable demo.hosted
  ∧ evolves demo.hosted demo.browsing
  ∧ _onDidChange (this demo.browsing) = _onDidChange (this demo.hosted).
Proof.
  split; [apply reachable_hosted|]. split; [apply evolves_hosted_browsing|].
  apply (C6_outward_emitter_never_replaced demo.hosted demo.browsing
           reachable_hosted evolves_hosted_browsing).
Defined.

Lemma C7_witness :
  reachable demo.searching
  ∧ Forall (λ s', atMostOne (subscribedToModel (world s'))
                  ∧ atMostOne (subscribedToAdapter (world s')))
      (demo.searching :: update_instants (IsCallsModel demo.calls) demo.searching).
Proof.
  split; [apply reachable_searching|].
  apply (C7_one_adapter_at_a_time (IsCallsModel demo.calls) demo.searching
           reachable_searching).
Defined.

(** ** The further properties on the small world *)

Lemma reachable_browsing : reachable demo.browsing.
Proof. eapply reachable_step; [apply reachable_calling|apply step_update]. Qed.

Lemma X3_witness :
  _provider (this demo.searching)
  = Some (ReferencesProvider 2 {| on := ModelStream 0; handle := 3 |} demo.modelA)
  ∧ (∀ r, r ∈ FileItem_results demo.file_a → ReferenceItem_parent r = demo.file_a)
  ∧ ∃ children : list TreeItem,
      getChildren (this demo.searching) (Some (IsFileItem demo.file_a))
      = Returned (Some children)
      ∧ length children = 2.
Proof.
  assert (∀ r, r ∈ FileItem_results demo.file_a
               → ReferenceItem_parent r = demo.file_a) as Hwf.
  { intros r [->|[->|[]%elem_of_nil]%elem_of_cons]%elem_of_cons; reflexivity. }
  split; [reflexivity|]. split; [exact Hwf|].
  destruct (X3_search_children_parent_round_trip (this demo.searching) 2
              {| on := ModelStream 0; handle := 3 |} demo.modelA demo.file_a
              eq_refl Hwf) as (children & H1 & H2 & _).
  by exists children.
Defined.

Lemma X4_witness :
  _provider (this demo.browsing) = Some (HistoryDataProvider 7 demo.history)
  ∧ ∃ (children : option (list TreeItem)) (parent : option TreeItem),
      getChildren (this demo.browsing) (Some (IsFileItem demo.file_a))
      = Returned children
      ∧ getParent (this demo.browsing) (IsFileItem demo.file_a) = Returned parent.
Proof.
  split; [reflexivity|].
  destruct (X4_stale_elements_do_not_fault (this demo.browsing)
              (HistoryDataProvider 7 demo.history) (IsFileItem demo.file_a)
              eq_refl ltac:(discriminate))
    as (children & parent & H1 & H2 & _).
  by exists children, parent.
Defined.

Lemma X5_witness :
  ∃ item : rendered,
    ReferencesProvider_getTreeItem (IsReferenceItem demo.match1) = Returned item
    ∧ (vscode.collapsibleState item = Some vscode.None_
       ↔ ReferencesProvider_getChildren demo.modelA
           (Some (IsReferenceItem demo.match1)) = None).
Proof.
  eexists. split; [reflexivity|].
  apply (X5_expandable_iff_children demo.modelA (IsReferenceItem demo.match1)
           _ eq_refl).
Defined.

Lemma X6_witness :
  _provider (this demo.searching)
  = Some (ReferencesProvider 2 {| on := ModelStream 0; handle := 3 |} demo.modelA)
  ∧ ((∃ item, getTreeItem (this demo.searching) (IsReferenceItem demo.match1)
              = Returned item)
     ↔ is_Some (FileItem_getDocument (ReferenceItem_parent demo.match1))).
Proof.
  split; [reflexivity|].
  apply (X6_rendering_needs_the_document (this demo.searching) 2
           {| on := ModelStream 0; handle := 3 |} demo.modelA demo.match1
           demo.file_a eq_refl).
Defined.

Lemma X7_witness :
  ∃ item : rendered,
    ReferencesProvider_getTreeItem (IsReferenceItem demo.match2) = Returned item
    ∧ ∃ l : vscode.TreeItemLabel,
        vscode.head item = vscode.OfTreeItemLabel l
        ∧ ∀ a b, (a, b) ∈ vscode.highlights l →
            a ≤ b ∧ b ≤ String.length (vscode.label l).
Proof.
  eexists. split; [reflexivity|].
  apply (X7_highlight_within_label demo.match2 _ eq_refl).
Defined.

Lemma X8_witness :
  _provider (this demo.browsing) = Some (HistoryDataProvider 7 demo.history)
  ∧ ∃ item : rendered,
      getTreeItem (this demo.browsing) (IsFileItem demo.file_a) = Returned item
      ∧ vscode.contextValue item = Some "history-item".
Proof.
  split; [reflexivity|]. eexists. split; [reflexivity|].
  apply (proj1 (X8_context_value_by_adapter (this demo.browsing)
                  (HistoryDataProvider 7 demo.history) (IsFileItem demo.file_a)
                  eq_refl) _ eq_refl).
Defined.

Lemma X9_witness :
  _provider (this demo.browsing) = Some (HistoryDataProvider 7 demo.history)
  ∧ ∃ item : rendered,
      getTreeItem (this demo.browsing) (IsFileItem demo.file_a) = Returned item
      ∧ ∃ cmd, vscode.item_command item = Some cmd
               ∧ vscode.command cmd = "references-view.show"
               ∧ vscode.arguments cmd = [IsFileItem demo.file_a].
Proof.
  split; [reflexivity|]. eexists. split; [reflexivity|].
  apply (X9_command_carries_element (this demo.browsing)
           (HistoryDataProvider 7 demo.history) (IsFileItem demo.file_a)
           _ eq_refl eq_refl).
Defined.

Lemma X11_witness :
  CallItemDataProvider_getThemeIcon (vscode.SymbolKind_value vscode.Method)
  = CallItemDataProvider_getThemeIcon (vscode.SymbolKind_value vscode.Method)
  ∧ vscode.Method = vscode.Method.
Proof.
  split; [reflexivity|].
  apply (X11_icons_distinct vscode.Method vscode.Method eq_refl).
Defined.

Lemma X12_witness :
  reachable demo.searching
  ∧ (subscribedToModel (world demo.searching) 2
     ↔ ∃ l m, _provider (this demo.searching) = Some (ReferencesProvider 2 l m)).
Proof.
  split; [apply reachable_searching|].
  apply (X12_no_listener_leak demo.searching reachable_searching).
Defined.

Lemma X13_witness :
  reachable demo.searching
  ∧ (∀ m, IsCallsModel demo.calls = IsReferencesModel m → streamOf m ≠ 0)
  ∧ trace (world (modelFires 0 (Obj (IsFileItem demo.file_a)) demo.calling))
    = trace (world demo.calling)
        ++ [Fired (ModelStream 0) (Obj (IsFileItem demo.file_a))].
Proof.
  assert (∀ m, IsCallsModel demo.calls = IsReferencesModel m → streamOf m ≠ 0)
    as Hne by discriminate.
  split; [apply reachable_searching|]. split; [exact Hne|].
  apply (X13_only_bound_model_is_heard (IsCallsModel demo.calls) demo.searching 0
           (Obj (IsFileItem demo.file_a)) reachable_searching Hne).
Defined.

Lemma X14_witness :
  reachable demo.searching
  ∧ _provider (this demo.searching)
    = Some (ReferencesProvider 2 {| on := ModelStream 0; handle := 3 |} demo.modelA)
  ∧ adapterStreams (world demo.calling) !! 2
    = Some {| vscode.listeners := []; vscode.disposed := true |}.
Proof.
  split; [apply reachable_searching|]. split; [reflexivity|].
  apply (X14_previous_adapter_cut_off (IsCallsModel demo.calls) demo.searching
           (ReferencesProvider 2 {| on := ModelStream 0; handle := 3 |} demo.modelA)
           reachable_searching eq_refl).
Defined.

Lemma X15_witness :
  reachable demo.hosted
  ∧ List.filter isFired
      (drop (length (trace (world demo.hosted)))
         (trace (world
           (foldl (λ s0 model, update model s0) demo.hosted
              [ IsReferencesModel demo.modelA; IsCallsModel demo.calls;
                IsHistory demo.history ]))))
    = replicate 3 (Fired (OutwardStream (_onDidChange (this demo.hosted))) undefined).
Proof.
  split; [apply reachable_hosted|].
  apply (X15_one_refresh_per_update
           [ IsReferencesModel demo.modelA; IsCallsModel demo.calls;
             IsHistory demo.history ] demo.hosted reachable_hosted).
Defined.

Lemma X16_witness :
  reachable demo.browsing
  ∧ _provider (this demo.browsing) = Some (HistoryDataProvider 7 demo.history)
  ∧ ¬ subscribedToModel (world demo.browsing) 7.
Proof.
  split; [apply reachable_browsing|]. split; [reflexivity|].
  apply (X16_history_adapter_is_silent demo.browsing 7 demo.history
           reachable_browsing eq_refl).
Defined.

Lemma X17_witness :
  reachable demo.browsing
  ∧ Forall (λ a, payloadOk a = true) (trace (world demo.browsing)).
Proof.
  split; [apply reachable_browsing|].
  apply (X17_host_sees_refresh_or_file demo.browsing reachable_browsing).
Defined.
